(** * DeepLabV3 and its segmentation head (keras_cv/models/segmentation/deeplab.py)

    A shallow embedding of the two classes of [deeplab.py]:

    - tensors are the symbolic tensors of the functional API: a static shape
      (each dimension an integer or [None]) and the list of layers applied so
      far;
    - Python exceptions are values of [exn]; fallible code returns [result];
    - calls into the framework and into the file system are logged in a trace,
      so that "what has run before the exception" is part of the result;
    - Python floats (the weight-decay coefficient, the dropout rate, the values
      of the trainable variables) are idealised as rationals.  *)

From Stdlib Require Import QArith.
From Stdlib Require Import DecimalString.
From stdpp Require Import gmap strings list sorting.

Local Open Scope string_scope.
Local Open Scope Z_scope.
Local Open Scope list_scope.

(** ** Python exceptions and results *)

Inductive exn :=
| ValueError | TypeError | StopIteration | ZeroDivisionError
| IndexError | KeyError | AttributeError.

Inductive result (A : Type) :=
| Ok (a : A)
| Raise (e : exn).
Arguments Ok {A} a.
Arguments Raise {A} e.

(** ** Shapes, layers of the framework, symbolic tensors *)

(** A dimension of a static shape: [None] in Python is [None] here. *)
Definition dim := option Z.

(** The layers of the framework that [deeplab.py] builds, with the arguments it
    passes, and [OpLayer] for a layer that is handed in from outside (backbone,
    pooling, a custom head). *)
Inductive op :=
| OpConv2D (name : string) (filters kernel_size : Z) (padding : string)
           (use_bias : bool) (activation : option string) (dtype : option string)
| OpBatchNormalization (name : string)
| OpActivation (identifier : string)
| OpDropout (rate : Q)
| OpUpSampling2D (size : Z * Z) (interpolation : string)
| OpLayer (name : string).

Record KerasTensor := mkTensor {
  t_name : string;          (* where the tensor comes from *)
  shape : list dim;         (* static shape, batch axis first *)
  history : list op         (* the layers applied so far, oldest first *)
}.

(** What a layer can be called on. *)
Inductive pyarg :=
| ANone
| ATensor (t : KerasTensor)
| AList (l : list KerasTensor)
| ADict (d : gmap Z KerasTensor).

(** ** Calls that are logged *)

Inductive event :=
| EvParseWeights (weights : string)      (* parse_weights(weights, True, "deeplabv3") *)
| EvGfileExists (path : string)          (* tf.io.gfile.exists(path) *)
| EvParseModelInputs                     (* utils.parse_model_inputs *)
| EvInput                                (* layers.Input *)
| EvApply (o : op)                       (* a layer is called on a tensor *)
| EvSuperInit                            (* keras.Model.__init__ *)
| EvLoadWeights (path : string)          (* self.load_weights(path) *)
| EvForward                              (* self(images, training=True) *)
| EvComputeLoss
| EvMinimize (loss : Q) (variables : list string)   (* optimizer.minimize *)
| EvComputeMetrics.

(** A computation logs events and then returns or raises. *)
Definition M (A : Type) : Type := list event * result A.

Definition ret {A} (a : A) : M A := ([], Ok a).
Definition raise {A} (e : exn) : M A := ([], Raise e).
Definition log (e : event) : M unit := ([e], Ok tt).
Definition lift {A} (r : result A) : M A := ([], r).

Definition bind {A B} (m : M A) (f : A -> M B) : M B :=
  match m with
  | (tr, Ok a) => let '(tr', r) := f a in (tr ++ tr', r)
  | (tr, Raise e) => (tr, Raise e)
  end.

Notation "'let*' x := m 'in' k" := (bind m (fun x => k))
  (at level 10, x pattern, m at level 100, k at level 200).

(** A [keras.layers.Layer] handed in from outside: its name, its declared
    [input_shape] (an attribute that raises while the layer is not built) and
    what calling it does. *)
Record Layer := mkLayer {
  l_name : string;
  l_input_shape : result (list dim);
  l_call : pyarg -> M KerasTensor
}.

(** Python objects as they appear as constructor arguments and in the
    dictionaries of [get_config]. *)
Inductive pyobj :=
| ONone
| OInt (z : Z)
| OFloat (q : Q)
| OStr (s : string)
| OBool (b : bool)
| OLayer (l : Layer).

(** [isinstance(o, keras.layers.Layer)] *)
Definition isinstance_Layer (o : pyobj) : bool :=
  match o with OLayer _ => true | _ => false end.

(** A [for] loop that threads the loop variable [x] through the body. *)
Fixpoint for_each {A X} (l : list A) (body : A -> X -> M X) (x : X) : M X :=
  match l with
  | [] => ret x
  | a :: l' => let* x' := body a x in for_each l' body x'
  end.

(** ** Python primitives *)

(** [t[i]] on a tuple. *)
Definition getitem {A} (t : list A) (i : nat) : result A :=
  match t !! i with
  | Some a => Ok a
  | None => Raise IndexError
  end.

(** [a // b] where either side may be [None]. *)
Definition floordiv (a b : dim) : result Z :=
  match a, b with
  | Some x, Some y => if decide (y = 0) then Raise ZeroDivisionError else Ok (x / y)
  | _, _ => Raise TypeError
  end.

(** [next(iter(l))] *)
Definition next_iter {A} (l : list A) : result A :=
  match l with
  | a :: _ => Ok a
  | [] => Raise StopIteration
  end.

(** [sorted(d)] on a dictionary with integer keys: its keys, ascending. *)
Definition sorted (d : gmap Z KerasTensor) : list Z :=
  merge_sort Z.le (elements (dom d)).

(** [d[k]] on a dictionary. *)
Definition dict_getitem (d : gmap Z KerasTensor) (k : Z) : result KerasTensor :=
  match d !! k with
  | Some x => Ok x
  | None => Raise KeyError
  end.

(** A float in a condition: false exactly when it is zero. *)
Definition truthy (q : Q) : bool := negb (Qeq_bool q 0).

(** A dictionary built from a list of items: a later item wins. *)
Definition dict (items : list (string * pyobj)) : gmap string pyobj :=
  foldl (fun m kv => <[kv.1 := kv.2]> m) ∅ items.

(** ["...{}".format(i)] for a loop index. *)
Definition format_nat (prefix : string) (i : nat) : string :=
  String.append prefix (NilZero.string_of_uint (Nat.to_uint i)).

(** [sub in s] on strings. *)
Fixpoint contains (sub s : string) : bool :=
  String.prefix sub s ||
  match s with
  | EmptyString => false
  | String _ s' => contains sub s'
  end.

(** ** Layers of the framework on symbolic tensors

    Shape inference as the framework does it for the layers built here.
    Of the validation of constructor arguments by the framework, the one of
    the factors of [UpSampling2D], which the code computes, is modelled (see
    [UpSampling2D]); the one of the arguments of the head (a positive number
    of classes, of filters and kernel size, a dropout rate between 0 and 1, a
    known activation identifier) is not: see [valid_head_arguments]. *)

Definition out_shape (o : op) (s : list dim) : result (list dim) :=
  match o with
  | OpConv2D _ filters _ _ _ _ _ =>
      match s with
      | [n; h; w; _] => Ok [n; h; w; Some filters]   (* padding "same", stride 1 *)
      | _ => Raise ValueError
      end
  | OpUpSampling2D (sh, sw) _ =>
      match s with
      | [n; h; w; c] => Ok [n; (fun x => sh * x) <$> h; (fun x => sw * x) <$> w; c]
      | _ => Raise ValueError
      end
  | OpBatchNormalization _ | OpActivation _ | OpDropout _ | OpLayer _ => Ok s
  end.

(** [layer(x)] for a layer of the framework. *)
Definition apply (o : op) (x : KerasTensor) : M KerasTensor :=
  let* _ := log (EvApply o) in
  let* s := lift (out_shape o (shape x)) in
  ret (mkTensor (t_name x) s (history x ++ [o])).

(** [layer(arg)] for a layer handed in from outside. *)
Definition call_layer (l : Layer) (arg : pyarg) : M KerasTensor :=
  let* _ := log (EvApply (OpLayer (l_name l))) in
  l_call l arg.

(** ** class SegmentationHead(layers.Layer) *)

Module SegmentationHead.

Record t := mk {
  kwargs : list (string * pyobj);     (* handed to layers.Layer.__init__ *)
  num_classes : Z;
  convolutions : Z;
  filters : Z;
  activations : string;
  dropout : Q;
  kernel_size : Z;
  use_bias : bool;
  activation : string;
  _conv_layers : list op;
  _bn_layers : list op;
  _classification_layer : op;
  dropout_layer : op
}.

(** The body of [for i in range(self.convolutions)]: one convolution and one
    normalization are appended per index. *)
Fixpoint build_layers (filters kernel_size : Z) (use_bias : bool)
    (indices : list nat) (conv_layers bn_layers : list op) : list op * list op :=
  match indices with
  | [] => (conv_layers, bn_layers)
  | i :: rest =>
      let conv_name := format_nat "segmentation_head_conv_" i in
      let conv_layers :=
        conv_layers ++ [OpConv2D conv_name filters kernel_size "same" use_bias None None] in
      let norm_name := format_nat "segmentation_head_norm_" i in
      let bn_layers := bn_layers ++ [OpBatchNormalization norm_name] in
      build_layers filters kernel_size use_bias rest conv_layers bn_layers
  end.

(** [range(n)] *)
Definition range (n : Z) : list nat := seq 0 (Z.to_nat n).

Definition __init__ (num_classes convolutions filters : Z) (activations : string)
    (dropout : Q) (kernel_size : Z) (activation : string) (use_bias : bool)
    (kwargs : list (string * pyobj)) : t :=
  let layers := build_layers filters kernel_size use_bias (range convolutions) [] [] in
  {| kwargs := kwargs;
     num_classes := num_classes;
     convolutions := convolutions;
     filters := filters;
     activations := activations;
     dropout := dropout;
     kernel_size := kernel_size;
     use_bias := use_bias;
     activation := activation;
     _conv_layers := layers.1;
     _bn_layers := layers.2;
     _classification_layer :=
       OpConv2D "segmentation_output" num_classes 1 "same" false
                (Some activation) (Some "float32");
     dropout_layer := OpDropout dropout |}.

(** The defaults of the keyword arguments. *)
Definition default_convolutions : Z := 2.
Definition default_filters : Z := 256.
Definition default_activations : string := "relu".
Definition default_dropout : Q := 0.
Definition default_kernel_size : Z := 3.
Definition default_activation : string := "softmax".
Definition default_use_bias : bool := false.

(** The body of the loop of [call]. *)
Definition block (self : t) (layers : op * op) (x : KerasTensor) : M KerasTensor :=
  let '(conv_layer, bn_layer) := layers in
  let* x := apply conv_layer x in
  let* x := apply bn_layer x in
  let* x := apply (OpActivation (activations self)) x in
  if truthy (dropout self) then apply (dropout_layer self) x else ret x.

(** What [call] does once [x = inputs[lowest_level]] is bound. *)
Definition forward (self : t) (x : KerasTensor) : M KerasTensor :=
  let* x := for_each (zip (_conv_layers self) (_bn_layers self)) (block self) x in
  apply (_classification_layer self) x.

Definition call (self : t) (inputs : pyarg) : M KerasTensor :=
  match inputs with
  | ADict d =>
      let* lowest_level := lift (next_iter (sorted d)) in
      let* x := lift (dict_getitem d lowest_level) in
      forward self x
  | _ => raise ValueError
  end.

Section GetConfig.

(** [layers.Layer.get_config] of the framework, as the items of the
    dictionary it returns for a layer built with the given keyword
    arguments. *)
Variable Layer_get_config : list (string * pyobj) -> list (string * pyobj).

Definition config (self : t) : list (string * pyobj) :=
  [ ("num_classes", OInt (num_classes self));
    ("convolutions", OInt (convolutions self));
    ("filters", OInt (filters self));
    ("activations", OStr (activations self));
    ("dropout", OFloat (dropout self));
    ("kernel_size", OInt (kernel_size self));
    ("use_bias", OBool (use_bias self));
    ("activation", OStr (activation self)) ].

Definition get_config (self : t) : gmap string pyobj :=
  let base_config := Layer_get_config (kwargs self) in
  dict (base_config ++ config self).

End GetConfig.

(** The name the base class gives the layer: the keyword argument [name] when
    there is one. *)
Definition name (self : t) : string :=
  match List.find (fun kv => String.eqb kv.1 "name") (kwargs self) with
  | Some (_, OStr s) => s
  | _ => "segmentation_head"
  end.

(** The head seen as a [keras.layers.Layer]. *)
Definition as_layer (self : t) : Layer :=
  {| l_name := name self;
     l_input_shape := Raise AttributeError;
     l_call := call self |}.

End SegmentationHead.

(** Sequencing of code that returns or raises and logs nothing. *)
Definition and_then {A B} (r : result A) (f : A -> result B) : result B :=
  match r with
  | Ok a => f a
  | Raise e => Raise e
  end.

Notation "'let?' x := r 'in' k" := (and_then r (fun x => k))
  (at level 10, x pattern, r at level 100, k at level 200).

(** ** class DeepLabV3(keras.Model) *)

(** A [tf.Variable]: its name and its values, flattened. *)
Record tfVariable := mkVariable {
  v_name : string;
  v_values : list Q
}.

(** [tf.nn.l2_loss(t)]: half the sum of the squares, [sum(t ** 2) / 2]. *)
Definition sum_squares (values : list Q) : Q :=
  foldr (fun x acc => x * x + acc)%Q 0%Q values.
Definition l2_loss (var : tfVariable) : Q := (sum_squares (v_values var) / 2)%Q.

(** [tf.math.add_n(inputs)]: the sum of a list that must not be empty. *)
Definition add_n (inputs : list Q) : result Q :=
  match inputs with
  | [] => Raise ValueError
  | x :: rest => Ok (foldl Qplus x rest)
  end.

(** [keras.layers.UpSampling2D(size=size, interpolation=...)]: the constructor
    of the framework rejects a factor that is not positive. *)
Definition UpSampling2D (size : Z * Z) (interpolation : string) : result op :=
  if decide (0 < size.1 ∧ 0 < size.2)
  then Ok (OpUpSampling2D size interpolation)
  else Raise ValueError.

(** [layers.Input(tensor=..., shape=...)]: a placeholder with a batch axis in
    front of [shape], or the given tensor wrapped. *)
Definition Input (tensor : option KerasTensor) (shape : list dim) : M KerasTensor :=
  let* _ := log EvInput in
  ret (match tensor with
       | Some t => t
       | None => mkTensor "input" (None :: shape) []
       end).

(** [s[0] is None and s[1] is None], the right side evaluated only when the
    left side holds. *)
Definition both_None (s : list dim) : result bool :=
  match getitem s 0 with
  | Raise e => Raise e
  | Ok (Some _) => Ok false
  | Ok None =>
      match getitem s 1 with
      | Raise e => Raise e
      | Ok d => Ok (bool_decide (d = None))
      end
  end.

(** A string (or [None]) in a condition. *)
Definition str_truthy (s : option string) : bool :=
  match s with
  | Some w => negb (String.eqb w "")
  | None => false
  end.

Module DeepLabV3.

Record t := mk {
  num_classes : Z;
  backbone : pyobj;
  spatial_pyramid_pooling : Layer;
  segmentation_head : Layer;
  segmentation_head_activation : string;
  weight_decay : Q;
  inputs : KerasTensor;
  outputs : KerasTensor
}.

Definition default_segmentation_head_activation : string := "softmax".
Definition default_weight_decay : Q := 1 # 10000.
Definition default_input_shape : list dim := [None; None; Some 3].

Section Environment.

(** What [deeplab.py] imports from the rest of the package and calls in the
    framework. *)

(** [keras_cv.models.weights.parse_weights]: resolves a weights reference to
    a path, or raises. *)
Variable parse_weights : string -> bool -> string -> result string.
(** [tf.io.gfile.exists] *)
Variable gfile_exists : string -> bool.
(** [keras_cv.models.utils.parse_model_inputs] *)
Variable parse_model_inputs : list dim -> option KerasTensor -> result KerasTensor.
(** [keras_cv.layers.spatial_pyramid.SpatialPyramidPooling(dilation_rates=...)] *)
Variable SpatialPyramidPooling : list Z -> Layer.
(** [keras.Model.load_weights] *)
Variable load_weights : string -> result unit.

Definition resolve (weights : string) : M string :=
  let* _ := log (EvParseWeights weights) in
  lift (parse_weights weights true "deeplabv3").

Definition exists_ (path : string) : M bool :=
  let* _ := log (EvGfileExists path) in
  ret (gfile_exists path).

Definition __init__ (num_classes : Z) (backbone : pyobj)
    (spatial_pyramid_pooling segmentation_head : option Layer)
    (segmentation_head_activation : string) (weight_decay : Q)
    (input_shape : list dim) (input_tensor : option KerasTensor)
    (weights : option string) : M t :=
  let* backbone_layer :=
    match backbone with
    | OLayer l => ret l
    | _ => raise ValueError
    end in
  let* _ :=
    match weights with
    | Some w =>
        if str_truthy weights then
          let* path := resolve w in
          let* found := exists_ path in
          if negb found then raise ValueError else ret tt
        else ret tt
    | None => ret tt
    end in
  let* inputs :=
    (let* _ := log EvParseModelInputs in
     lift (parse_model_inputs input_shape input_tensor)) in
  let* unspecified := lift (both_None input_shape) in
  let* (input_shape, inputs) :=
    if (unspecified : bool) then
      let* backbone_shape := lift (l_input_shape backbone_layer) in
      let input_shape := tail backbone_shape in
      let* inputs := Input input_tensor input_shape in
      ret (input_shape, inputs)
    else ret (input_shape, inputs) in
  let* unresolved := lift (both_None input_shape) in
  let* _ := if (unresolved : bool) then raise ValueError else ret tt in
  let* height := lift (getitem input_shape 0) in
  let* width := lift (getitem input_shape 1) in
  let* feature_map := call_layer backbone_layer (ATensor inputs) in
  let spatial_pyramid_pooling :=
    match spatial_pyramid_pooling with
    | None => SpatialPyramidPooling [6; 12; 18]
    | Some l => l
    end in
  let* output := call_layer spatial_pyramid_pooling (ATensor feature_map) in
  let* size_h :=
    lift (match getitem (shape feature_map) 1 with
          | Ok d => floordiv height d
          | Raise e => Raise e
          end) in
  let* size_w :=
    lift (match getitem (shape feature_map) 2 with
          | Ok d => floordiv width d
          | Raise e => Raise e
          end) in
  let* up_layer := lift (UpSampling2D (size_h, size_w) "bilinear") in
  let* output := apply up_layer output in
  let segmentation_head :=
    match segmentation_head with
    | None =>
        SegmentationHead.as_layer
          (SegmentationHead.__init__ num_classes 1
             SegmentationHead.default_filters
             SegmentationHead.default_activations
             (2 # 10) 1 segmentation_head_activation
             SegmentationHead.default_use_bias
             [("name", OStr "segmentation_head")])
    | Some l => l
    end in
  let* output := call_layer segmentation_head (ADict {[ 1 := output ]}) in
  let* _ := log EvSuperInit in
  let* _ :=
    match weights with
    | Some w =>
        let* path := resolve w in
        let* _ := log (EvLoadWeights path) in
        lift (load_weights path)
    | None => ret tt
    end in
  ret {| num_classes := num_classes;
         backbone := backbone;
         spatial_pyramid_pooling := spatial_pyramid_pooling;
         segmentation_head := segmentation_head;
         segmentation_head_activation := segmentation_head_activation;
         weight_decay := weight_decay;
         inputs := inputs;
         outputs := output |}.

End Environment.

(** The regularization terms collected by the loop of [train_step]. *)
Fixpoint collect_reg_losses (weight_decay : Q) (trainable_variables : list tfVariable)
    (reg_losses : list Q) : list Q :=
  match trainable_variables with
  | [] => reg_losses
  | var :: rest =>
      let reg_losses :=
        if negb (contains "bn" (v_name var))
        then reg_losses ++ [(weight_decay * l2_loss var)%Q]
        else reg_losses in
      collect_reg_losses weight_decay rest reg_losses
  end.

(** [train_step]: [trainable_variables] are the variables the framework holds
    for the model, [compute_loss] and [compute_metrics] what the framework
    returns for the batch. *)
Definition train_step {Metrics : Type} (self : t)
    (trainable_variables : list tfVariable)
    (compute_loss : Q) (compute_metrics : Metrics) : M Metrics :=
  let* _ := log EvForward in
  let* _ := log EvComputeLoss in
  let total_loss := compute_loss in
  let reg_losses := [] in
  let* total_loss :=
    if truthy (weight_decay self) then
      let reg_losses :=
        collect_reg_losses (weight_decay self) trainable_variables reg_losses in
      let* l2_loss := lift (add_n reg_losses) in
      ret (total_loss + l2_loss)%Q
    else ret total_loss in
  let* _ := log (EvMinimize total_loss (v_name <$> trainable_variables)) in
  let* _ := log EvComputeMetrics in
  ret compute_metrics.

Definition get_config (self : t) : gmap string pyobj :=
  dict [ ("num_classes", OInt (num_classes self));
         ("backbone", backbone self);
         ("spatial_pyramid_pooling", OLayer (spatial_pyramid_pooling self));
         ("segmentation_head", OLayer (segmentation_head self));
         ("segmentation_head_activation", OStr (segmentation_head_activation self));
         ("weight_decay", OFloat (weight_decay self)) ].

Section Build.

(** [layer.compute_output_shape(input_shape)] of the framework. *)
Variable compute_output_shape : Layer -> list dim -> result (list dim).

(** [build]: the layer it stores in [self.up_layer]. *)
Definition build (self : t) (input_shape : list dim) : result op :=
  let? height := getitem input_shape 1 in
  let? width := getitem input_shape 2 in
  let? feature_map_shape :=
    match backbone self with
    | OLayer l => compute_output_shape l input_shape
    | _ => Raise AttributeError
    end in
  let? size_h := (let? d := getitem feature_map_shape 1 in floordiv height d) in
  let? size_w := (let? d := getitem feature_map_shape 2 in floordiv width d) in
  UpSampling2D (size_h, size_w) "bilinear".

End Build.

End DeepLabV3.

(** ** Vocabulary of the properties *)

(** The convolution and the normalization the constructor of the head builds
    for index [i]. *)
Definition conv_at (filters kernel_size : Z) (use_bias : bool) (i : nat) : op :=
  OpConv2D (format_nat "segmentation_head_conv_" i) filters kernel_size "same"
           use_bias None None.
Definition norm_at (i : nat) : op :=
  OpBatchNormalization (format_nat "segmentation_head_norm_" i).

(** The layers one block of the head applies, in order. *)
Definition block_ops (self : SegmentationHead.t) (i : nat) : list op :=
  [ conv_at (SegmentationHead.filters self) (SegmentationHead.kernel_size self)
            (SegmentationHead.use_bias self) i;
    norm_at i;
    OpActivation (SegmentationHead.activations self) ]
  ++ (if truthy (SegmentationHead.dropout self)
      then [OpDropout (SegmentationHead.dropout self)] else []).

(** A tensor with a batch axis, two spatial axes and a channel axis. *)
Definition is_feature_map (x : KerasTensor) : Prop := length (shape x) = 4%nat.

(** A feature map after the layers [ops]: same source, same batch and spatial
    axes, the channel axis set to [channels], the layers added to its
    history. *)
Definition after (x : KerasTensor) (channels : dim) (ops : list op) : KerasTensor :=
  match shape x with
  | [n; h; w; _] => mkTensor (t_name x) [n; h; w; channels] (history x ++ ops)
  | _ => x
  end.

(** The weights reference, when there is one, resolves, exists and loads. *)
Definition weights_load (parse_weights : string -> bool -> string -> result string)
    (gfile_exists : string -> bool) (load_weights : string -> result unit)
    (weights : option string) : Prop :=
  match weights with
  | None => True
  | Some w =>
      ∃ path, parse_weights w true "deeplabv3" = Ok path
              ∧ (str_truthy weights = true -> gfile_exists path = true)
              ∧ load_weights path = Ok tt
  end.

(** The height [H], the width [W] and the input tensor the constructor works
    with: those of [input_shape] when its height is given, those the backbone
    declares when [input_shape] leaves both out. *)
Definition resolved_input
    (parse_model_inputs : list dim -> option KerasTensor -> result KerasTensor)
    (backbone_layer : Layer) (input_shape : list dim)
    (input_tensor : option KerasTensor) (H W : Z) (inputs : KerasTensor) : Prop :=
  ∃ parsed,
    parse_model_inputs input_shape input_tensor = Ok parsed
    ∧ ((input_shape !! 0%nat = Some (Some H) ∧ input_shape !! 1%nat = Some (Some W)
        ∧ inputs = parsed)
       ∨ (both_None input_shape = Ok true
          ∧ ∃ backbone_shape,
              l_input_shape backbone_layer = Ok backbone_shape
              ∧ tail backbone_shape !! 0%nat = Some (Some H)
              ∧ tail backbone_shape !! 1%nat = Some (Some W)
              ∧ inputs = match input_tensor with
                         | Some t => t
                         | None => mkTensor "input" (None :: tail backbone_shape) []
                         end)).

(** The pooling and the head the constructor ends up with. *)
Definition pooling_or_default (SpatialPyramidPooling : list Z -> Layer)
    (pooling : option Layer) : Layer :=
  match pooling with
  | None => SpatialPyramidPooling [6; 12; 18]
  | Some l => l
  end.
Definition head_or_default (nc : Z) (act : string) (head : option Layer) : Layer :=
  match head with
  | None =>
      SegmentationHead.as_layer
        (SegmentationHead.__init__ nc 1 SegmentationHead.default_filters
           SegmentationHead.default_activations (2 # 10) 1 act
           SegmentationHead.default_use_bias [("name", OStr "segmentation_head")])
  | Some l => l
  end.

(** The trainable variables the penalty is summed over: those whose name does
    not contain ["bn"]. *)
Definition penalised (trainable_variables : list tfVariable) : list tfVariable :=
  List.filter (fun var => negb (contains "bn" (v_name var))) trainable_variables.

Definition Qsum (l : list Q) : Q := foldr Qplus 0%Q l.

(** [sub] occurs in [s] as a contiguous substring. *)
Definition has_substring (sub s : string) : Prop :=
  ∃ pre post, s = String.append pre (String.append sub post).

(** Arguments of the head that the constructors of the framework accept, as
    far as numbers go: a positive number of classes, of filters and kernel
    size, a dropout rate between 0 and 1. *)
Definition valid_head_arguments (num_classes filters kernel_size : Z) (dropout : Q)
  : Prop :=
  0 < num_classes ∧ 0 < filters ∧ 0 < kernel_size
  ∧ (0 <= dropout)%Q ∧ (dropout <= 1)%Q.

(** The tensor [UpSampling2D(size, "bilinear")] returns on a feature map. *)
Definition upsampled (size : Z * Z) (x : KerasTensor) : KerasTensor :=
  match shape x with
  | [n; h; w; c] =>
      mkTensor (t_name x)
        [n; (fun v => size.1 * v) <$> h; (fun v => size.2 * v) <$> w; c]
        (history x ++ [OpUpSampling2D size "bilinear"])
  | _ => x
  end.

(** The weights reference, when there is one, resolves to [path], which
    exists when the reference is not empty. *)
Definition weights_resolve (parse_weights : string -> bool -> string -> result string)
    (gfile_exists : string -> bool) (weights : option string) (path : string) : Prop :=
  match weights with
  | None => True
  | Some w =>
      parse_weights w true "deeplabv3" = Ok path
      ∧ (str_truthy weights = true -> gfile_exists path = true)
  end.

(** What the constructor logs for its test of the weights reference, for its
    input and for its loading of the weights. *)
Definition check_trace (weights : option string) (path : string) : list event :=
  match weights with
  | Some w => if str_truthy weights then [EvParseWeights w; EvGfileExists path] else []
  | None => []
  end.
Definition input_trace (input_shape : list dim) : list event :=
  match both_None input_shape with
  | Ok true => [EvParseModelInputs; EvInput]
  | _ => [EvParseModelInputs]
  end.
Definition load_trace (weights : option string) (path : string) : list event :=
  match weights with
  | Some w => [EvParseWeights w; EvLoadWeights path]
  | None => []
  end.

(** What loading the weights returns, when there are weights to load. *)
Definition load_outcome (load_weights : string -> result unit)
    (weights : option string) (path : string) : result unit :=
  match weights with
  | Some _ => load_weights path
  | None => Ok tt
  end.

(** The constructor of the model from [height = input_shape[0]] on, as a
    function of the shape and the input tensor the lines before it end up
    with. *)
Definition constructor_tail
    (parse_weights : string -> bool -> string -> result string)
    (SpatialPyramidPooling : list Z -> Layer)
    (load_weights : string -> result unit)
    (num_classes : Z) (backbone : pyobj) (backbone_layer : Layer)
    (spatial_pyramid_pooling segmentation_head : option Layer)
    (segmentation_head_activation : string) (weight_decay : Q)
    (weights : option string)
    (input_shape : list dim) (inputs : KerasTensor) : M DeepLabV3.t :=
  let* height := lift (getitem input_shape 0) in
  let* width := lift (getitem input_shape 1) in
  let* feature_map := call_layer backbone_layer (ATensor inputs) in
  let spatial_pyramid_pooling :=
    match spatial_pyramid_pooling with
    | None => SpatialPyramidPooling [6; 12; 18]
    | Some l => l
    end in
  let* output := call_layer spatial_pyramid_pooling (ATensor feature_map) in
  let* size_h :=
    lift (match getitem (shape feature_map) 1 with
          | Ok d => floordiv height d
          | Raise e => Raise e
          end) in
  let* size_w :=
    lift (match getitem (shape feature_map) 2 with
          | Ok d => floordiv width d
          | Raise e => Raise e
          end) in
  let* up_layer := lift (UpSampling2D (size_h, size_w) "bilinear") in
  let* output := apply up_layer output in
  let segmentation_head :=
    match segmentation_head with
    | None =>
        SegmentationHead.as_layer
          (SegmentationHead.__init__ num_classes 1
             SegmentationHead.default_filters
             SegmentationHead.default_activations
             (2 # 10) 1 segmentation_head_activation
             SegmentationHead.default_use_bias
             [("name", OStr "segmentation_head")])
    | Some l => l
    end in
  let* output := call_layer segmentation_head (ADict {[ 1 := output ]}) in
  let* _ := log EvSuperInit in
  let* _ :=
    match weights with
    | Some w =>
        let* path := DeepLabV3.resolve parse_weights w in
        let* _ := log (EvLoadWeights path) in
        lift (load_weights path)
    | None => ret tt
    end in
  ret {| DeepLabV3.num_classes := num_classes;
         DeepLabV3.backbone := backbone;
         DeepLabV3.spatial_pyramid_pooling := spatial_pyramid_pooling;
         DeepLabV3.segmentation_head := segmentation_head;
         DeepLabV3.segmentation_head_activation := segmentation_head_activation;
         DeepLabV3.weight_decay := weight_decay;
         DeepLabV3.inputs := inputs;
         DeepLabV3.outputs := output |}.

(** The calls of the constructor go through: the shape resolves to [H] by
    [W], the backbone returns a feature map [fm] of [fh] by [fw], the factors
    [H // fh] and [W // fw] are positive, the pooling returns a feature map
    [po], and the head returns [out] on the upsampled [po] at level 1. *)
Definition layers_run
    (parse_model_inputs : list dim -> option KerasTensor -> result KerasTensor)
    (SpatialPyramidPooling : list Z -> Layer)
    (nc : Z) (act : string) (backbone_layer : Layer) (pooling head : option Layer)
    (input_shape : list dim) (input_tensor : option KerasTensor)
    (H W fh fw : Z) (inputs fm po out : KerasTensor)
    (tr_b tr_p tr_h : list event) : Prop :=
  resolved_input parse_model_inputs backbone_layer input_shape input_tensor H W inputs
  ∧ l_call backbone_layer (ATensor inputs) = (tr_b, Ok fm)
  ∧ (∃ n c, shape fm = [n; Some fh; Some fw; c])
  ∧ 0 < H / fh ∧ 0 < W / fw
  ∧ l_call (pooling_or_default SpatialPyramidPooling pooling) (ATensor fm) = (tr_p, Ok po)
  ∧ is_feature_map po
  ∧ l_call (head_or_default nc act head)
           (ADict {[ 1 := upsampled (H / fh, W / fw) po ]}) = (tr_h, Ok out).

(** ** Concrete surroundings, used to run the model on examples *)

Module Examples.

Definition parse_weights (weights : string) (include_top : bool) (model : string)
  : result string := Ok weights.
Definition gfile_exists (path : string) : bool := String.eqb path "deeplab.h5".
Definition parse_model_inputs (input_shape : list dim) (input_tensor : option KerasTensor)
  : result KerasTensor :=
  Ok (match input_tensor with
      | Some t => t
      | None => mkTensor "input" (None :: input_shape) []
      end).
(** The pooling the constructor builds by default: it keeps the resolution of
    a feature map whose height and width are known and positive, and raises
    [ValueError] on any other. *)
Definition pooling_call (arg : pyarg) : M KerasTensor :=
  match arg with
  | ATensor (mkTensor nm [n; Some h; Some w; _] hist) =>
      if decide (0 < h ∧ 0 < w)
      then ret (mkTensor nm [n; Some h; Some w; Some 256]
                         (hist ++ [OpLayer "spatial_pyramid_pooling"]))
      else raise ValueError
  | _ => raise ValueError
  end.
Definition SpatialPyramidPooling (dilation_rates : list Z) : Layer :=
  {| l_name := "spatial_pyramid_pooling";
     l_input_shape := Raise AttributeError;
     l_call := pooling_call |}.
Definition load_weights (path : string) : result unit := Ok tt.

(** A backbone of the given stride with "same" padding: each spatial dimension
    becomes [ceil(d / stride)]. *)
Definition strided (stride : Z) (d : dim) : dim := (fun x => (x + stride - 1) / stride) <$> d.
Definition backbone_call (stride : Z) (arg : pyarg) : M KerasTensor :=
  match arg with
  | ATensor (mkTensor nm [n; h; w; _] hist) =>
      ret (mkTensor nm [n; strided stride h; strided stride w; Some 2048]
                    (hist ++ [OpLayer "backbone"]))
  | _ => raise ValueError
  end.
Definition backbone (stride : Z) (input_shape : list dim) : Layer :=
  {| l_name := "backbone";
     l_input_shape := Ok input_shape;
     l_call := backbone_call stride |}.

Definition init := DeepLabV3.__init__ parse_weights gfile_exists parse_model_inputs
                     SpatialPyramidPooling load_weights.

(** [compute_output_shape] of a layer: the shape of what it returns on a
    placeholder of the given shape. *)
Definition compute_output_shape (l : Layer) (input_shape : list dim) : result (list dim) :=
  match l_call l (ATensor (mkTensor "placeholder" input_shape [])) with
  | (_, Ok t) => Ok (shape t)
  | (_, Raise e) => Raise e
  end.

(** A pooling handed in by the caller that accepts a tensor of any shape and
    returns it as it is, as [keras.layers.Activation("linear")] does. *)
Definition identity_pooling : Layer :=
  {| l_name := "activation";
     l_input_shape := Raise AttributeError;
     l_call := fun arg =>
       match arg with
       | ATensor t => ret (mkTensor (t_name t) (shape t) (history t ++ [OpLayer "activation"]))
       | _ => raise ValueError
       end |}.

(** A backbone that cannot handle its input. *)
Definition failing_backbone : Layer :=
  {| l_name := "backbone";
     l_input_shape := Ok [None; None; None; Some 3];
     l_call := fun _ => ([EvApply (OpConv2D "conv1" 64 7 "valid" false None None)],
                         Raise ValueError) |}.

(** A backbone whose feature map has no rows. *)
Definition empty_backbone : Layer :=
  {| l_name := "backbone";
     l_input_shape := Ok [None; None; None; Some 3];
     l_call := fun arg =>
       match arg with
       | ATensor (mkTensor nm [n; _; w; _] hist) =>
           ret (mkTensor nm [n; Some 0; w; Some 2048] (hist ++ [OpLayer "backbone"]))
       | _ => raise ValueError
       end |}.

(** The feature pyramid of the docstring of [SegmentationHead]. *)
Definition p3 : KerasTensor := mkTensor "p3" [Some 2; Some 32; Some 32; Some 3] [].
Definition p4 : KerasTensor := mkTensor "p4" [Some 2; Some 16; Some 16; Some 3] [].
Definition p5 : KerasTensor := mkTensor "p5" [Some 2; Some 8; Some 8; Some 3] [].
Definition fpn : gmap Z KerasTensor := <[3 := p3]> (<[4 := p4]> (<[5 := p5]> ∅)).

(** [SegmentationHead(num_classes=11)] *)
Definition head11 : SegmentationHead.t :=
  SegmentationHead.__init__ 11
    SegmentationHead.default_convolutions SegmentationHead.default_filters
    SegmentationHead.default_activations SegmentationHead.default_dropout
    SegmentationHead.default_kernel_size SegmentationHead.default_activation
    SegmentationHead.default_use_bias [].

(** [layers.Layer.get_config]: the name, whether the layer is trainable and
    its dtype. *)
Definition Layer_get_config (kwargs : list (string * pyobj)) : list (string * pyobj) :=
  [ ("name", match List.find (fun kv => String.eqb kv.1 "name") kwargs with
             | Some (_, o) => o
             | None => OStr "segmentation_head"
             end);
    ("trainable", OBool true);
    ("dtype", OStr "float32") ].

(** A ResNet-like backbone of stride 16 that accepts images of any size. *)
Definition resnet : Layer := backbone 16 [None; None; None; Some 3].

(** [DeepLabV3(num_classes=21, backbone=resnet, input_shape=(512, 512, 3))] *)
Definition model : DeepLabV3.t :=
  {| DeepLabV3.num_classes := 21;
     DeepLabV3.backbone := OLayer resnet;
     DeepLabV3.spatial_pyramid_pooling := SpatialPyramidPooling [6; 12; 18];
     DeepLabV3.segmentation_head := head_or_default 21 "softmax" None;
     DeepLabV3.segmentation_head_activation := "softmax";
     DeepLabV3.weight_decay := DeepLabV3.default_weight_decay;
     DeepLabV3.inputs := mkTensor "input" [None; Some 512; Some 512; Some 3] [];
     DeepLabV3.outputs :=
       mkTensor "input" [None; Some 512; Some 512; Some 21]
         [ OpLayer "backbone"; OpLayer "spatial_pyramid_pooling";
           OpUpSampling2D (16, 16) "bilinear";
           OpConv2D "segmentation_head_conv_0" 256 1 "same" false None None;
           OpBatchNormalization "segmentation_head_norm_0";
           OpActivation "relu"; OpDropout (2 # 10);
           OpConv2D "segmentation_output" 21 1 "same" false (Some "softmax")
                    (Some "float32") ] |}.

(** The same model built with [weight_decay=0.0]. *)
Definition plain_model : DeepLabV3.t :=
  {| DeepLabV3.num_classes := DeepLabV3.num_classes model;
     DeepLabV3.backbone := DeepLabV3.backbone model;
     DeepLabV3.spatial_pyramid_pooling := DeepLabV3.spatial_pyramid_pooling model;
     DeepLabV3.segmentation_head := DeepLabV3.segmentation_head model;
     DeepLabV3.segmentation_head_activation := DeepLabV3.segmentation_head_activation model;
     DeepLabV3.weight_decay := 0;
     DeepLabV3.inputs := DeepLabV3.inputs model;
     DeepLabV3.outputs := DeepLabV3.outputs model |}.

(** One convolution kernel of the model, with a single weight. *)
Definition kernel : tfVariable := mkVariable "conv2d/kernel:0" [2%Q].

End Examples.


(** * Properties *)

(** ** The monad *)

Lemma bind_ret_l {A B} (a : A) (f : A -> M B) : bind (ret a) f = f a.
Proof. unfold bind, ret. destruct (f a) as [tr r]. reflexivity. Qed.

Lemma bind_lift_ok {A B} (a : A) (f : A -> M B) : bind (lift (Ok a)) f = f a.
Proof. apply bind_ret_l. Qed.

Lemma bind_ok {A B} (m : M A) (f : A -> M B) tr a :
  m = (tr, Ok a) -> bind m f = (tr ++ (f a).1, (f a).2).
Proof. intros ->. unfold bind. destruct (f a) as [tr' r]. reflexivity. Qed.

Lemma bind_err {A B} (m : M A) (f : A -> M B) tr e :
  m = (tr, Raise e) -> bind m f = (tr, Raise e).
Proof. intros ->. reflexivity. Qed.

(** ** Python primitives *)

(** A float is true in a condition exactly when it is not zero. *)
Lemma truthy_spec (q : Q) : truthy q = true ↔ ¬ (q == 0)%Q.
Proof.
  unfold truthy. rewrite negb_true_iff. split.
  - intros Hf Hq. apply Qeq_bool_iff in Hq. congruence.
  - intros Hq. destruct (Qeq_bool q 0) eqn:E; [|done].
    apply Qeq_bool_iff in E. done.
Qed.

(** ** The segmentation head *)

(** The loop of the constructor appends one convolution and one
    normalization per index, in the order of the indices. *)
Lemma build_layers_spec filters kernel_size use_bias indices convs norms :
  SegmentationHead.build_layers filters kernel_size use_bias indices convs norms
  = (convs ++ (conv_at filters kernel_size use_bias <$> indices),
     norms ++ (norm_at <$> indices)).
Proof.
  revert convs norms.
  induction indices as [|i rest IH]; intros convs norms; simpl.
  - by rewrite !app_nil_r.
  - rewrite IH, <- !app_assoc. reflexivity.
Qed.

Lemma zip_layers filters kernel_size use_bias indices :
  zip (conv_at filters kernel_size use_bias <$> indices) (norm_at <$> indices)
  = (fun i => (conv_at filters kernel_size use_bias i, norm_at i)) <$> indices.
Proof.
  induction indices as [|i rest IH]; [done|].
  rewrite !fmap_cons. cbn [zip_with]. by rewrite IH.
Qed.

(** X13. The convolution and normalization lists of a head have equal length,
    the convolution count when it is positive and zero otherwise. *)
Lemma head_layers_length nc n f acts d k act ub kw :
  let self := SegmentationHead.__init__ nc n f acts d k act ub kw in
  length (SegmentationHead._conv_layers self) = Z.to_nat n ∧
  length (SegmentationHead._bn_layers self) = Z.to_nat n.
Proof.
  intros self. subst self.
  unfold SegmentationHead.__init__.
  cbn [SegmentationHead._conv_layers SegmentationHead._bn_layers].
  rewrite build_layers_spec. cbn [fst snd app].
  unfold SegmentationHead.range. by rewrite !length_fmap, length_seq.
Qed.

Lemma block_spec self i x :
  is_feature_map x ->
  SegmentationHead.dropout_layer self = OpDropout (SegmentationHead.dropout self) ->
  SegmentationHead.block self
    (conv_at (SegmentationHead.filters self) (SegmentationHead.kernel_size self)
             (SegmentationHead.use_bias self) i, norm_at i) x
  = (EvApply <$> block_ops self i,
     Ok (after x (Some (SegmentationHead.filters self)) (block_ops self i))).
Proof.
  intros Hx Hd. unfold is_feature_map in Hx.
  destruct x as [nm s hist]. simpl in Hx.
  destruct s as [|n [|h [|w [|c [|? ?]]]]]; try discriminate.
  unfold block_ops, after, SegmentationHead.block. rewrite Hd.
  destruct (truthy (SegmentationHead.dropout self));
    cbn; rewrite <- ?app_assoc; reflexivity.
Qed.

Lemma after_feature_map x c ops : is_feature_map x -> is_feature_map (after x c ops).
Proof.
  unfold is_feature_map, after. destruct x as [nm s hist]; simpl.
  destruct s as [|n [|h [|w [|c' [|? ?]]]]]; done.
Qed.

Lemma after_after x c1 c2 ops1 ops2 :
  is_feature_map x -> after (after x c1 ops1) c2 ops2 = after x c2 (ops1 ++ ops2).
Proof.
  unfold is_feature_map, after. destruct x as [nm s hist]; simpl.
  destruct s as [|n [|h [|w [|c' [|? ?]]]]]; try done.
  intros _. simpl. by rewrite app_assoc.
Qed.

Lemma blocks_spec self indices x :
  is_feature_map x ->
  indices ≠ [] ->
  SegmentationHead.dropout_layer self = OpDropout (SegmentationHead.dropout self) ->
  for_each
    ((fun i => (conv_at (SegmentationHead.filters self)
                        (SegmentationHead.kernel_size self)
                        (SegmentationHead.use_bias self) i, norm_at i)) <$> indices)
    (SegmentationHead.block self) x
  = (EvApply <$> concat (block_ops self <$> indices),
     Ok (after x (Some (SegmentationHead.filters self))
               (concat (block_ops self <$> indices)))).
Proof.
  intros Hx Hne Hd. revert x Hx.
  induction indices as [|i rest IH]; [done|]. intros x Hx.
  cbn [fmap list_fmap for_each concat].
  rewrite (bind_ok _ _ _ _ (block_spec self i x Hx Hd)).
  destruct rest as [|j rest'].
  - cbn [fmap list_fmap for_each concat]. unfold ret. cbn [fst snd].
    by rewrite !app_nil_r.
  - rewrite IH; [|done|by apply after_feature_map]. cbn [fst snd].
    rewrite after_after by done. by rewrite fmap_app.
Qed.

(** [sorted] lists exactly the keys of the dictionary, in ascending order. *)
Lemma sorted_keys (d : gmap Z KerasTensor) :
  StronglySorted Z.le (sorted d) ∧ ∀ k, k ∈ sorted d ↔ is_Some (d !! k).
Proof.
  unfold sorted. split.
  - apply StronglySorted_merge_sort; apply _.
  - intros k. rewrite merge_sort_Permutation, elem_of_elements. apply elem_of_dom.
Qed.

(** On a dictionary that is not empty, [next(iter(sorted(d)))] is its smallest
    key. *)
Lemma lowest_level_spec (d : gmap Z KerasTensor) :
  d ≠ ∅ ->
  ∃ k x, next_iter (sorted d) = Ok k ∧ d !! k = Some x ∧
         ∀ k', is_Some (d !! k') -> k ≤ k'.
Proof.
  intros Hne. destruct (sorted_keys d) as [Hsorted Hkeys].
  destruct (sorted d) as [|k rest] eqn:E.
  - exfalso. apply Hne. apply map_eq. intros i. rewrite lookup_empty.
    destruct (d !! i) as [x|] eqn:Hi; [|done].
    assert (i ∈ @nil Z) as Hin by (apply Hkeys; eauto).
    by apply elem_of_nil in Hin.
  - assert (is_Some (d !! k)) as [x Hx] by (apply Hkeys; left).
    exists k, x. repeat split; [done|].
    intros k' Hk'. apply Hkeys in Hk'.
    apply StronglySorted_inv in Hsorted as [_ Hall].
    apply elem_of_cons in Hk' as [->|Hin]; [lia|].
    rewrite Forall_forall in Hall. by apply Hall.
Qed.

(** C10. Called with an empty dictionary, the head passes the check that its
    input is a dictionary and then raises [StopIteration] when it takes the
    first of the sorted keys: not the [ValueError] of an input that is not a
    dictionary, and before any layer is applied. *)
Theorem head_call_empty_dict_raises_StopIteration (self : SegmentationHead.t) :
  SegmentationHead.call self (ADict ∅) = ([], Raise StopIteration)
  ∧ SegmentationHead.call self (ADict ∅) ≠ ([], Raise ValueError).
Proof.
  assert (sorted ∅ = []) as E.
  { unfold sorted. by rewrite dom_empty_L, elements_empty. }
  unfold SegmentationHead.call. rewrite E. split; [reflexivity | discriminate].
Qed.

(** C9. Called with anything that is not a dictionary, the head raises
    [ValueError], and no layer (convolution, normalization, activation,
    dropout, projection) has been applied: the trace is empty. *)
Theorem head_call_non_dict_raises_ValueError (self : SegmentationHead.t) (inputs : pyarg) :
  (∀ d, inputs ≠ ADict d) ->
  SegmentationHead.call self inputs = ([], Raise ValueError).
Proof.
  intros Hnd. destruct inputs as [|x|l|d]; try reflexivity.
  by destruct (Hnd d).
Qed.

(** C4. On a dictionary that is not empty, the forward pass of the head runs
    on the tensor stored at the numerically smallest key, and on nothing
    else of the dictionary. *)
Theorem head_call_selects_smallest_key (self : SegmentationHead.t)
    (inputs : gmap Z KerasTensor) :
  inputs ≠ ∅ ->
  ∃ k x, inputs !! k = Some x
         ∧ (∀ k', is_Some (inputs !! k') -> k ≤ k')
         ∧ next_iter (sorted inputs) = Ok k
         ∧ SegmentationHead.call self (ADict inputs) = SegmentationHead.forward self x.
Proof.
  intros Hne. destruct (lowest_level_spec inputs Hne) as (k & x & Hnext & Hx & Hmin).
  exists k, x. repeat split; try done.
  unfold SegmentationHead.call. rewrite Hnext, bind_lift_ok.
  unfold dict_getitem. rewrite Hx. by rewrite bind_lift_ok.
Qed.

(** The forward pass of a head built with [N] convolutions. *)
Lemma head_forward_spec (N : nat) nc f acts d k act ub kw (x : KerasTensor) :
  let self := SegmentationHead.__init__ nc (Z.of_nat N) f acts d k act ub kw in
  let blocks := concat (block_ops self <$> seq 0 N) in
  let projection := SegmentationHead._classification_layer self in
  is_feature_map x ->
  SegmentationHead.forward self x
  = (EvApply <$> (blocks ++ [projection]),
     Ok (after x (Some nc) (blocks ++ [projection]))).
Proof.
  intros self blocks projection Hx.
  assert (zip (SegmentationHead._conv_layers self) (SegmentationHead._bn_layers self)
          = (fun i => (conv_at f k ub i, norm_at i)) <$> seq 0 N) as Hzip.
  { subst self. unfold SegmentationHead.__init__.
    cbn [SegmentationHead._conv_layers SegmentationHead._bn_layers].
    rewrite build_layers_spec. cbn [fst snd app].
    unfold SegmentationHead.range. rewrite Nat2Z.id. apply zip_layers. }
  assert (∀ y, is_feature_map y ->
            apply projection y
            = ([EvApply projection], Ok (after y (Some nc) [projection]))) as Hproj.
  { intros y Hy. unfold is_feature_map in Hy. destruct y as [nm s hist]. simpl in Hy.
    destruct s as [|n [|h [|w [|c [|? ?]]]]]; try discriminate. reflexivity. }
  unfold SegmentationHead.forward. rewrite Hzip.
  destruct (seq 0 N) as [|i rest] eqn:Hseq.
  - subst blocks. cbn [fmap list_fmap for_each concat app].
    rewrite bind_ret_l. by apply Hproj.
  - subst blocks.
    erewrite bind_ok; [|apply (blocks_spec self (i :: rest) x Hx); done].
    rewrite Hproj by (by apply after_feature_map).
    cbn [fst snd]. rewrite after_after by done. by rewrite fmap_app.
Qed.

(** C5. A head configured with [N] convolutions applies, to the selected
    feature tensor, exactly [N] blocks in the order of their indices, each
    block being convolution, normalization, activation and, only when the
    dropout rate is not zero, dropout; every convolution has the configured
    filters, kernel size and bias setting; then comes the classification
    projection. With [N = 0] the selected tensor is projected directly. *)
Theorem head_call_applies_N_blocks (N : nat) nc f acts d k act ub kw
    (inputs : gmap Z KerasTensor) (lowest_level : Z) (x : KerasTensor) :
  let self := SegmentationHead.__init__ nc (Z.of_nat N) f acts d k act ub kw in
  let block := fun i : nat =>
    [ OpConv2D (format_nat "segmentation_head_conv_" i) f k "same" ub None None;
      OpBatchNormalization (format_nat "segmentation_head_norm_" i);
      OpActivation acts ]
    ++ (if truthy d then [OpDropout d] else []) in
  let projection :=
    OpConv2D "segmentation_output" nc 1 "same" false (Some act) (Some "float32") in
  next_iter (sorted inputs) = Ok lowest_level ->
  inputs !! lowest_level = Some x ->
  is_feature_map x ->
  length (block <$> seq 0 N) = N
  ∧ SegmentationHead.call self (ADict inputs)
    = (EvApply <$> (concat (block <$> seq 0 N) ++ [projection]),
       Ok (after x (Some nc) (concat (block <$> seq 0 N) ++ [projection])))
  ∧ (N = 0%nat ->
     SegmentationHead.call self (ADict inputs)
     = ([EvApply projection], Ok (after x (Some nc) [projection]))).
Proof.
  intros self block projection Hnext Hx Hfm.
  assert (SegmentationHead.call self (ADict inputs)
          = (EvApply <$> (concat (block <$> seq 0 N) ++ [projection]),
             Ok (after x (Some nc) (concat (block <$> seq 0 N) ++ [projection]))))
    as Hcall.
  { unfold SegmentationHead.call. rewrite Hnext, bind_lift_ok.
    unfold dict_getitem. rewrite Hx, bind_lift_ok.
    apply (head_forward_spec N nc f acts d k act ub kw x Hfm). }
  split; [by rewrite length_fmap, length_seq|].
  split; [exact Hcall|].
  intros ->. exact Hcall.
Qed.

Lemma head_call_applies_N_blocks_witness :
  SegmentationHead.call Examples.head11 (ADict Examples.fpn)
  = (EvApply <$>
       [ OpConv2D "segmentation_head_conv_0" 256 3 "same" false None None;
         OpBatchNormalization "segmentation_head_norm_0";
         OpActivation "relu";
         OpConv2D "segmentation_head_conv_1" 256 3 "same" false None None;
         OpBatchNormalization "segmentation_head_norm_1";
         OpActivation "relu";
         OpConv2D "segmentation_output" 11 1 "same" false (Some "softmax")
                  (Some "float32") ],
     Ok (mkTensor "p3" [Some 2; Some 32; Some 32; Some 11]
           [ OpConv2D "segmentation_head_conv_0" 256 3 "same" false None None;
             OpBatchNormalization "segmentation_head_norm_0";
             OpActivation "relu";
             OpConv2D "segmentation_head_conv_1" 256 3 "same" false None None;
             OpBatchNormalization "segmentation_head_norm_1";
             OpActivation "relu";
             OpConv2D "segmentation_output" 11 1 "same" false (Some "softmax")
                      (Some "float32") ])).
Proof.
  refine (proj1 (proj2 (head_call_applies_N_blocks 2 11 256 "relu" 0%Q 3 "softmax" false []
                          Examples.fpn 3 Examples.p3 _ _ _))).
  - vm_compute. reflexivity.
  - vm_compute. reflexivity.
  - vm_compute. reflexivity.
Defined.

Lemma head_call_non_dict_raises_ValueError_witness :
  SegmentationHead.call Examples.head11 (ATensor Examples.p3) = ([], Raise ValueError).
Proof.
  apply (head_call_non_dict_raises_ValueError Examples.head11 (ATensor Examples.p3)).
  intros d. discriminate.
Defined.

(** For a mapping with keys 3, 4 and 5 the head selects the tensor of key 3. *)
Lemma head_call_selects_smallest_key_witness :
  Examples.fpn ≠ ∅
  ∧ SegmentationHead.call Examples.head11 (ADict Examples.fpn)
    = SegmentationHead.forward Examples.head11 Examples.p3.
Proof.
  assert (Examples.fpn ≠ ∅) as Hne.
  { intros E. apply (f_equal (fun m : gmap Z KerasTensor => m !! 3)) in E.
    vm_compute in E. discriminate. }
  split; [exact Hne|].
  destruct (head_call_selects_smallest_key Examples.head11 Examples.fpn Hne)
    as (k & x & Hx & Hmin & Hnext & Hcall).
  assert (next_iter (sorted Examples.fpn) = Ok 3) as H3 by (vm_compute; reflexivity).
  rewrite H3 in Hnext. injection Hnext as <-.
  assert (Examples.fpn !! 3 = Some Examples.p3) as Hp3 by (vm_compute; reflexivity).
  rewrite Hp3 in Hx. injection Hx as <-. exact Hcall.
Defined.

(** ** Construction of the model *)

Section Construction.

Variable parse_weights : string -> bool -> string -> result string.
Variable gfile_exists : string -> bool.
Variable parse_model_inputs : list dim -> option KerasTensor -> result KerasTensor.
Variable SpatialPyramidPooling : list Z -> Layer.
Variable load_weights : string -> result unit.
Variable Layer_get_config : list (string * pyobj) -> list (string * pyobj).

Local Abbreviation init := (DeepLabV3.__init__ parse_weights gfile_exists
                          parse_model_inputs SpatialPyramidPooling load_weights).
Local Abbreviation weights_load := (weights_load parse_weights gfile_exists load_weights).
Local Abbreviation pooling_or_default := (pooling_or_default SpatialPyramidPooling).
Local Abbreviation resolved_input := (resolved_input parse_model_inputs).

(** C8. A backbone that is not a [keras.layers.Layer] makes the constructor
    raise [ValueError], whatever the other arguments are, and nothing has
    run before: the trace is empty. *)
Theorem init_non_layer_backbone_raises_ValueError
    nc (backbone : pyobj) pooling head act wd input_shape input_tensor weights :
  isinstance_Layer backbone = false ->
  init nc backbone pooling head act wd input_shape input_tensor weights
  = ([], Raise ValueError).
Proof.
  intros Hb. destruct backbone; try discriminate Hb; reflexivity.
Qed.

(** C6. With a weights reference that is given (not [None], not empty) and
    resolves to a path that does not exist, the constructor raises
    [ValueError]; all that has run is the resolution of the reference and
    the existence test (nothing at all when the backbone is rejected
    first): no input parsing, no call of the backbone, of the pooling or of
    the head. *)
Theorem init_missing_weights_raises_ValueError
    nc (backbone : pyobj) pooling head act wd input_shape input_tensor
    (weights : option string) (w path : string) :
  weights = Some w ->
  w ≠ "" ->
  parse_weights w true "deeplabv3" = Ok path ->
  gfile_exists path = false ->
  init nc backbone pooling head act wd input_shape input_tensor weights
  = (if isinstance_Layer backbone
     then [EvParseWeights w; EvGfileExists path] else [],
     Raise ValueError).
Proof.
  intros -> Hw Hparse Hexists.
  destruct backbone as [| | | | |b]; try reflexivity.
  unfold DeepLabV3.__init__. rewrite bind_ret_l.
  apply bind_err.
  assert (str_truthy (Some w) = true) as ->.
  { unfold str_truthy. by destruct (String.eqb_spec w ""). }
  unfold DeepLabV3.resolve, DeepLabV3.exists_.
  rewrite Hparse. cbn. rewrite Hexists. reflexivity.
Qed.

Lemma bind_returns {A B} (m : M A) (f : A -> M B) tr a tr' b :
  m = (tr, Ok a) -> f a = (tr', Ok b) -> bind m f = (tr ++ tr', Ok b).
Proof. intros -> Hf. unfold bind. by rewrite Hf. Qed.

(** The constructor of the upsampling layer accepts positive factors. *)
Lemma UpSampling2D_positive (a b : Z) (interpolation : string) :
  0 < a -> 0 < b ->
  UpSampling2D (a, b) interpolation = Ok (OpUpSampling2D (a, b) interpolation).
Proof. intros Ha Hb. unfold UpSampling2D. by rewrite decide_True. Qed.

Ltac step :=
  eapply bind_returns; [first [eassumption | reflexivity] | cbn beta iota].

(** The constructor from the call of the backbone on, given the equations of
    the calls as hypotheses of the goal. *)
Ltac run_layers :=
  eapply bind_returns;
    [unfold call_layer; eapply bind_returns; [reflexivity | eassumption]|];
  cbn beta iota;
  eapply bind_returns;
    [unfold call_layer; eapply bind_returns; [reflexivity | eassumption]|];
  cbn beta iota;
  match goal with
  | Hs : shape _ = [_; Some _; Some _; _], Hdh : floordiv _ _ = _,
    Hdw : floordiv _ _ = _ |- _ =>
      rewrite Hs; cbn [getitem lookup list_lookup]; rewrite Hdh, Hdw
  end;
  do 2 step;
  match goal with
  | Hc : UpSampling2D _ _ = Ok _ |- _ => rewrite Hc
  end;
  step;
  eapply bind_returns; [eassumption|]; cbn beta iota;
  eapply bind_returns;
    [unfold call_layer; eapply bind_returns; [reflexivity | eassumption]|];
  cbn beta iota; step;
  eapply bind_returns; [eassumption|]; reflexivity.

(** C1, as the code has it. With a height [H] and a width [W] that are given,
    or left out and declared by the backbone, a backbone whose feature map is
    [fh] by [fw], factors [H // fh] and [W // fw] that are positive, and a
    pooling and a head that keep the resolution of what they are given: the
    backbone, the pooling, the bilinear upsampling by [(H // fh, W // fw)] and
    the head run in this order, and the output of the model is
    [fh * (H // fh)] by [fw * (W // fw)]. That is [H] by [W] exactly when [fh]
    divides [H] and [fw] divides [W]. *)
Theorem init_output_resolution
    nc (backbone_layer : Layer) pooling head act wd input_shape (H W : Z)
    input_tensor weights
    (inputs fm po out : KerasTensor) tr_b tr_p tr_h
    (n n' n'' cf cp co : dim) (fh fw : Z) :
  let up_op := OpUpSampling2D (H / fh, W / fw) "bilinear" in
  let up := mkTensor (t_name po) [n'; Some (H / fh * fh); Some (W / fw * fw); cp]
                     (history po ++ [up_op]) in
  weights_load weights ->
  resolved_input backbone_layer input_shape input_tensor H W inputs ->
  l_call backbone_layer (ATensor inputs) = (tr_b, Ok fm) ->
  shape fm = [n; Some fh; Some fw; cf] ->
  0 < H / fh -> 0 < W / fw ->
  l_call (pooling_or_default pooling) (ATensor fm) = (tr_p, Ok po) ->
  shape po = [n'; Some fh; Some fw; cp] ->
  l_call (head_or_default nc act head) (ADict {[ 1 := up ]}) = (tr_h, Ok out) ->
  shape out = [n''; Some (H / fh * fh); Some (W / fw * fw); co] ->
  ∃ tr_pre tr_post m,
    init nc (OLayer backbone_layer) pooling head act wd input_shape
         input_tensor weights
    = (tr_pre
       ++ [EvApply (OpLayer (l_name backbone_layer))] ++ tr_b
       ++ [EvApply (OpLayer (l_name (pooling_or_default pooling)))] ++ tr_p
       ++ [EvApply up_op]
       ++ [EvApply (OpLayer (l_name (head_or_default nc act head)))] ++ tr_h
       ++ tr_post,
       Ok m)
    ∧ DeepLabV3.inputs m = inputs
    ∧ DeepLabV3.outputs m = out
    ∧ shape (DeepLabV3.outputs m)
      = [n''; Some (fh * (H / fh)); Some (fw * (W / fw)); co]
    ∧ (shape (DeepLabV3.outputs m) = [n''; Some H; Some W; co]
       ↔ (fh | H) ∧ (fw | W)).
Proof.
  intros up_op up Hweights Hres Hfm Hfms Hsh Hsw Hpo Hpos Hout Houts.
  assert (fh ≠ 0) as Hfh by (intros ->; rewrite Z.div_0_r in Hsh; lia).
  assert (fw ≠ 0) as Hfw by (intros ->; rewrite Z.div_0_r in Hsw; lia).
  assert (∃ trw, (match weights with
                  | Some w =>
                      if str_truthy weights then
                        let* path := DeepLabV3.resolve parse_weights w in
                        let* found := DeepLabV3.exists_ gfile_exists path in
                        if negb found then raise ValueError else ret tt
                      else ret tt
                  | None => ret tt
                  end) = (trw, Ok tt)) as [trw Hw1].
  { destruct weights as [w|]; [|by eexists].
    destruct Hweights as (path & Hp & Hex & _).
    destruct (str_truthy (Some w)); [|by eexists].
    unfold DeepLabV3.resolve, DeepLabV3.exists_. rewrite Hp. cbn.
    rewrite Hex by done. by eexists. }
  assert (∃ trl, (match weights with
                  | Some w =>
                      let* path := DeepLabV3.resolve parse_weights w in
                      let* _ := log (EvLoadWeights path) in
                      lift (load_weights path)
                  | None => ret tt
                  end) = (trl, Ok tt)) as [trl Hw2].
  { destruct weights as [w|]; [|by eexists].
    destruct Hweights as (path & Hp & _ & Hl).
    unfold DeepLabV3.resolve. rewrite Hp. cbn. rewrite Hl. by eexists. }
  assert (floordiv (Some H) (Some fh) = Ok (H / fh)) as Hdh.
  { unfold floordiv. by rewrite decide_False. }
  assert (floordiv (Some W) (Some fw) = Ok (W / fw)) as Hdw.
  { unfold floordiv. by rewrite decide_False. }
  assert (apply up_op po = ([EvApply up_op], Ok up)) as Hup.
  { unfold apply. cbn. rewrite Hpos. cbn. reflexivity. }
  pose proof (UpSampling2D_positive (H / fh) (W / fw) "bilinear" Hsh Hsw) as Hcons.
  assert (∀ shape0 : list dim,
            shape0 !! 0%nat = Some (Some H) -> shape0 !! 1%nat = Some (Some W) ->
            both_None shape0 = Ok false
            ∧ getitem shape0 0 = Ok (Some H) ∧ getitem shape0 1 = Ok (Some W))
    as Hshape.
  { intros shape0 H0 H1. unfold both_None, getitem, dim in *. by rewrite H0, H1. }
  assert (∃ tr m,
            init nc (OLayer backbone_layer) pooling head act wd input_shape
                 input_tensor weights = (tr, Ok m)
            ∧ DeepLabV3.inputs m = inputs
            ∧ DeepLabV3.outputs m = out
            ∧ ∃ tr_pre tr_post,
                tr = tr_pre
                     ++ [EvApply (OpLayer (l_name backbone_layer))] ++ tr_b
                     ++ [EvApply (OpLayer (l_name (pooling_or_default pooling)))]
                     ++ tr_p ++ [EvApply up_op]
                     ++ [EvApply (OpLayer (l_name (head_or_default nc act head)))]
                     ++ tr_h ++ tr_post)
    as (tr & m & Hinit & Hin & Hm & tr_pre & tr_post & ->).
  { destruct Hres as (inputs0 & Hparse & [(H0 & H1 & ->) | Hinferred]).
    - destruct (Hshape input_shape H0 H1) as (Hboth & Hg0 & Hg1).
      eexists _, _. split.
      { unfold DeepLabV3.__init__. rewrite bind_ret_l.
        eapply bind_returns; [exact Hw1|].
        rewrite Hparse. step. rewrite Hboth. do 2 step.
        rewrite Hboth. do 2 step. rewrite Hg0, Hg1. do 2 step.
        run_layers. }
      split; [reflexivity|]. split; [reflexivity|].
      exists (trw ++ [EvParseModelInputs]), (EvSuperInit :: trl).
      repeat (rewrite <- ?app_assoc; cbn [app]). by rewrite ?app_nil_r.
    - destruct Hinferred as (Hnone & bshape & Hb & H0 & H1 & ->).
      destruct (Hshape (tail bshape) H0 H1) as (Hboth & Hg0 & Hg1).
      eexists _, _. split.
      { unfold DeepLabV3.__init__. rewrite bind_ret_l.
        eapply bind_returns; [exact Hw1|].
        rewrite Hparse. step. rewrite Hnone. step.
        eapply bind_returns.
        { rewrite Hb. eapply bind_returns; [reflexivity|]. cbn beta iota.
          eapply bind_returns; [reflexivity|]. reflexivity. }
        cbn beta iota.
        rewrite Hboth. do 2 step. rewrite Hg0, Hg1. do 2 step.
        run_layers. }
      split; [reflexivity|]. split; [reflexivity|].
      exists (trw ++ [EvParseModelInputs; EvInput]), (EvSuperInit :: trl).
      repeat (rewrite <- ?app_assoc; cbn [app]). by rewrite ?app_nil_r. }
  exists tr_pre, tr_post, m.
  split; [exact Hinit|].
  split; [exact Hin|]. split; [exact Hm|].
  assert (H / fh * fh = fh * (H / fh)) as Eh by lia.
  assert (W / fw * fw = fw * (W / fw)) as Ew by lia.
  rewrite Hm, Houts, Eh, Ew. split; [done|].
  split.
  - intros E. injection E as Eh' Ew'. split.
    + exists (H / fh). lia.
    + exists (W / fw). lia.
  - intros [[a Ha] [b Hb]]. subst H W.
    by rewrite !Z.div_mul by done; rewrite (Z.mul_comm fh), (Z.mul_comm fw).
Qed.

(** X14. Construction stops with [ValueError] when neither the arguments nor
    the backbone resolve height or width: the input has been parsed and
    [layers.Input] called, the backbone has not been called. *)
Lemma init_unresolved_raises_ValueError
    nc (backbone_layer : Layer) pooling head act wd input_shape input_tensor
    (inputs : KerasTensor) (backbone_shape : list dim) :
  parse_model_inputs input_shape input_tensor = Ok inputs ->
  both_None input_shape = Ok true ->
  l_input_shape backbone_layer = Ok backbone_shape ->
  both_None (tail backbone_shape) = Ok true ->
  init nc (OLayer backbone_layer) pooling head act wd input_shape input_tensor None
  = ([EvParseModelInputs; EvInput], Raise ValueError).
Proof.
  intros Hin Hnone Hb Hbnone.
  unfold DeepLabV3.__init__. rewrite !bind_ret_l, Hin, Hnone, Hb.
  cbn. rewrite Hbnone. reflexivity.
Qed.

(** With the height unresolved and the width given, neither guard of the
    constructor fires: construction goes on to the backbone and the pooling
    and stops at [height // feature_map.shape[1]] with [TypeError]. *)
Lemma init_height_unresolved_raises_TypeError
    nc (backbone_layer : Layer) pooling head act wd (W : Z) (C : dim) input_tensor
    (inputs fm po : KerasTensor) tr_b tr_p (d1 : dim) :
  parse_model_inputs [None; Some W; C] input_tensor = Ok inputs ->
  l_call backbone_layer (ATensor inputs) = (tr_b, Ok fm) ->
  shape fm !! 1%nat = Some d1 ->
  l_call (pooling_or_default pooling) (ATensor fm) = (tr_p, Ok po) ->
  init nc (OLayer backbone_layer) pooling head act wd [None; Some W; C]
       input_tensor None
  = ([EvParseModelInputs; EvApply (OpLayer (l_name backbone_layer))] ++ tr_b
     ++ [EvApply (OpLayer (l_name (pooling_or_default pooling)))] ++ tr_p,
     Raise TypeError).
Proof.
  intros Hin Hfm Hd Hpo.
  unfold DeepLabV3.__init__. rewrite !bind_ret_l, Hin.
  cbn [both_None getitem lookup list_lookup bool_decide decide_rel].
  unfold call_layer.
  change (match pooling with
          | Some l => l
          | None => SpatialPyramidPooling [6; 12; 18]
          end) with (pooling_or_default pooling).
  cbn. rewrite Hfm. cbn. rewrite Hpo. cbn.
  unfold getitem. rewrite Hd. cbn. by rewrite app_nil_r.
Qed.

(** The head the constructor builds by default keeps the resolution of the
    tensor it is given and has [num_classes] channels. *)
Lemma default_head_keeps_resolution nc act (x : KerasTensor) n h w c :
  shape x = [n; h; w; c] ->
  ∃ tr out,
    l_call (head_or_default nc act None) (ADict {[ 1 := x ]}) = (tr, Ok out)
    ∧ shape out = [n; h; w; Some nc].
Proof.
  intros Hx.
  assert (is_feature_map x) as Hfm by (unfold is_feature_map; by rewrite Hx).
  cbn [head_or_default SegmentationHead.as_layer l_call].
  unfold SegmentationHead.call.
  assert (sorted {[ 1 := x ]} = [1]) as ->.
  { unfold sorted. by rewrite dom_singleton_L, elements_singleton. }
  cbn [next_iter]. rewrite bind_lift_ok.
  unfold dict_getitem. rewrite lookup_singleton_eq, bind_lift_ok.
  rewrite (head_forward_spec 1 nc _ _ _ _ act _ _ x Hfm).
  eexists _, _. split; [reflexivity|].
  unfold after. rewrite Hx. reflexivity.
Qed.

Lemma bind_inv {A B} (m : M A) (f : A -> M B) tr b :
  bind m f = (tr, Ok b) ->
  ∃ tr1 a tr2, m = (tr1, Ok a) ∧ f a = (tr2, Ok b) ∧ tr = tr1 ++ tr2.
Proof.
  unfold bind. destruct m as [tr1 [a|e]]; [|discriminate].
  destruct (f a) as [tr2 r] eqn:Hf. intros [= <- ->]. by exists tr1, a, tr2.
Qed.

(** What a model that was constructed holds. *)
Lemma init_fields nc backbone pooling head act wd input_shape input_tensor weights
    tr (m : DeepLabV3.t) :
  init nc backbone pooling head act wd input_shape input_tensor weights = (tr, Ok m) ->
  DeepLabV3.num_classes m = nc
  ∧ DeepLabV3.backbone m = backbone
  ∧ DeepLabV3.spatial_pyramid_pooling m = pooling_or_default pooling
  ∧ DeepLabV3.segmentation_head m = head_or_default nc act head
  ∧ DeepLabV3.segmentation_head_activation m = act
  ∧ DeepLabV3.weight_decay m = wd.
Proof.
  intros Hinit. unfold DeepLabV3.__init__ in Hinit.
  repeat (let a := fresh "a" in
          apply bind_inv in Hinit as (? & a & ? & ? & Hinit & ?);
          cbn beta in Hinit;
          try match type of a with (_ * _)%type => destruct a end).
  injection Hinit as _ <-. done.
Qed.

(** C7, as the code has it. The configuration of a constructed model has
    exactly the six keys [num_classes], [backbone],
    [spatial_pyramid_pooling], [segmentation_head],
    [segmentation_head_activation] and [weight_decay]; each entry is the
    constructor argument, except that a pooling or a head that was left out
    is the one the constructor built in its place. The configuration of a
    head is the configuration of the base layer extended (and, on a shared
    key, overridden) by the eight entries [num_classes], [convolutions],
    [filters], [activations], [dropout], [kernel_size], [use_bias] and
    [activation], each equal to the constructor argument. *)
Theorem get_config_entries
    nc backbone pooling head act wd input_shape input_tensor weights tr
    (m : DeepLabV3.t)
    hnc hconv hf hacts hd hk hact hub hkw :
  let self := SegmentationHead.__init__ hnc hconv hf hacts hd hk hact hub hkw in
  let base_config := dict (Layer_get_config hkw) in
  let head_keys : gset string :=
    {[ "num_classes"; "convolutions"; "filters"; "activations"; "dropout";
       "kernel_size"; "use_bias"; "activation" ]} in
  init nc backbone pooling head act wd input_shape input_tensor weights = (tr, Ok m) ->
  (dom (DeepLabV3.get_config m)
     = {[ "num_classes"; "backbone"; "spatial_pyramid_pooling"; "segmentation_head";
          "segmentation_head_activation"; "weight_decay" ]}
   ∧ DeepLabV3.get_config m !! "num_classes" = Some (OInt nc)
   ∧ DeepLabV3.get_config m !! "backbone" = Some backbone
   ∧ DeepLabV3.get_config m !! "spatial_pyramid_pooling"
     = Some (OLayer (pooling_or_default pooling))
   ∧ DeepLabV3.get_config m !! "segmentation_head"
     = Some (OLayer (head_or_default nc act head))
   ∧ DeepLabV3.get_config m !! "segmentation_head_activation" = Some (OStr act)
   ∧ DeepLabV3.get_config m !! "weight_decay" = Some (OFloat wd))
  ∧ (dom (SegmentationHead.get_config Layer_get_config self)
       = head_keys ∪ dom base_config
     ∧ SegmentationHead.get_config Layer_get_config self !! "num_classes"
       = Some (OInt hnc)
     ∧ SegmentationHead.get_config Layer_get_config self !! "convolutions"
       = Some (OInt hconv)
     ∧ SegmentationHead.get_config Layer_get_config self !! "filters"
       = Some (OInt hf)
     ∧ SegmentationHead.get_config Layer_get_config self !! "activations"
       = Some (OStr hacts)
     ∧ SegmentationHead.get_config Layer_get_config self !! "dropout"
       = Some (OFloat hd)
     ∧ SegmentationHead.get_config Layer_get_config self !! "kernel_size"
       = Some (OInt hk)
     ∧ SegmentationHead.get_config Layer_get_config self !! "use_bias"
       = Some (OBool hub)
     ∧ SegmentationHead.get_config Layer_get_config self !! "activation"
       = Some (OStr hact)
     ∧ ∀ key, key ∉ head_keys ->
         SegmentationHead.get_config Layer_get_config self !! key
         = base_config !! key).
Proof.
  intros self base_config head_keys Hinit.
  destruct (init_fields _ _ _ _ _ _ _ _ _ _ _ Hinit)
    as (Hnc & Hb & Hp & Hh & Ha & Hw).
  split.
  - unfold DeepLabV3.get_config, dict. cbn [foldl fst snd].
    rewrite Hnc, Hb, Hp, Hh, Ha, Hw.
    split; [rewrite !dom_insert_L, dom_empty_L; set_solver|].
    repeat split; by simplify_map_eq.
  - assert (SegmentationHead.get_config Layer_get_config self
            = <["activation" := OStr hact]>
                (<["use_bias" := OBool hub]>
                   (<["kernel_size" := OInt hk]>
                      (<["dropout" := OFloat hd]>
                         (<["activations" := OStr hacts]>
                            (<["filters" := OInt hf]>
                               (<["convolutions" := OInt hconv]>
                                  (<["num_classes" := OInt hnc]> base_config))))))))
      as ->.
    { unfold SegmentationHead.get_config, dict. by rewrite foldl_app. }
    split; [rewrite !dom_insert_L; subst head_keys; set_unfold; intros x; tauto|].
    repeat split; try by simplify_map_eq.
    intros key Hkey. subst head_keys.
    rewrite !lookup_insert_ne; [done|set_solver..].
Qed.

End Construction.

(** ** The training step *)

Lemma collect_reg_losses_spec wd vars acc :
  DeepLabV3.collect_reg_losses wd vars acc
  = acc ++ ((fun var => wd * l2_loss var)%Q <$> penalised vars).
Proof.
  revert acc. induction vars as [|var rest IH]; intros acc; simpl.
  - by rewrite app_nil_r.
  - rewrite IH. destruct (contains "bn" (v_name var)); simpl; [done|].
    by rewrite <- app_assoc.
Qed.

Lemma foldl_Qplus (x : Q) (l : list Q) : (foldl Qplus x l == x + Qsum l)%Q.
Proof.
  revert x. induction l as [|y l IH]; intros x; cbn [foldl foldr Qsum].
  - by rewrite Qplus_0_r.
  - rewrite IH. unfold Qsum. ring.
Qed.

Lemma Qsum_scale (c : Q) (f : tfVariable -> Q) (l : list tfVariable) :
  (Qsum ((fun var => c * f var) <$> l) == c * Qsum (f <$> l))%Q.
Proof.
  induction l as [|var l IH]; cbn [fmap list_fmap foldr Qsum].
  - by rewrite Qmult_0_r.
  - change (foldr Qplus 0 ((λ var : tfVariable, c * f var) <$> l))%Q
      with (Qsum ((fun var => c * f var)%Q <$> l)).
    rewrite IH. unfold Qsum. ring.
Qed.

(** C2, as the code has it. With a weight-decay coefficient that is not zero
    and at least one trainable variable whose name does not contain ["bn"],
    the training step runs the forward pass, computes the primary loss, adds
    the coefficient times HALF the sum of the squares of the values of exactly
    those variables, performs one optimizer update with the combined loss over
    all trainable variables, and returns the metrics. *)
Theorem train_step_adds_half_l2_penalty {Metrics : Type} (self : DeepLabV3.t)
    (trainable_variables : list tfVariable) (compute_loss : Q)
    (compute_metrics : Metrics) :
  truthy (DeepLabV3.weight_decay self) = true ->
  penalised trainable_variables ≠ [] ->
  ∃ total_loss : Q,
    DeepLabV3.train_step self trainable_variables compute_loss compute_metrics
    = ([ EvForward; EvComputeLoss;
         EvMinimize total_loss (v_name <$> trainable_variables);
         EvComputeMetrics ],
       Ok compute_metrics)
    ∧ (total_loss
       == compute_loss
          + DeepLabV3.weight_decay self
            * Qsum ((fun var => sum_squares (v_values var) / 2)
                      <$> penalised trainable_variables))%Q.
Proof.
  intros Hwd Hne. unfold DeepLabV3.train_step. rewrite Hwd.
  rewrite collect_reg_losses_spec. cbn [app].
  destruct (penalised trainable_variables) as [|var rest] eqn:Hp; [done|].
  cbn [fmap list_fmap add_n].
  eexists. split; [reflexivity|].
  rewrite foldl_Qplus.
  rewrite (Qsum_scale (DeepLabV3.weight_decay self) l2_loss rest).
  cbn [foldr Qsum]. unfold l2_loss.
  change (foldr Qplus 0 ((λ var0 : tfVariable, sum_squares (v_values var0) / 2) <$> rest))%Q
    with (Qsum ((fun var0 => sum_squares (v_values var0) / 2)%Q <$> rest)).
  ring.
Qed.

(** X15. With a coefficient that is not zero and no variable to penalise,
    [tf.math.add_n] is given an empty list: the step raises before the
    optimizer is called. *)
Lemma train_step_nothing_to_penalise {Metrics : Type} (self : DeepLabV3.t)
    (trainable_variables : list tfVariable) (compute_loss : Q)
    (compute_metrics : Metrics) :
  truthy (DeepLabV3.weight_decay self) = true ->
  penalised trainable_variables = [] ->
  DeepLabV3.train_step self trainable_variables compute_loss compute_metrics
  = ([EvForward; EvComputeLoss], Raise ValueError).
Proof.
  intros Hwd Hp. unfold DeepLabV3.train_step. rewrite Hwd.
  rewrite collect_reg_losses_spec, Hp. reflexivity.
Qed.

(** With a coefficient of zero nothing is added to the primary loss and
    [tf.math.add_n] is not called: the step goes through whatever the
    variables are, also when there is none. *)
Lemma train_step_without_weight_decay {Metrics : Type} (self : DeepLabV3.t)
    (trainable_variables : list tfVariable) (compute_loss : Q)
    (compute_metrics : Metrics) :
  truthy (DeepLabV3.weight_decay self) = false ->
  DeepLabV3.train_step self trainable_variables compute_loss compute_metrics
  = ([ EvForward; EvComputeLoss;
       EvMinimize compute_loss (v_name <$> trainable_variables);
       EvComputeMetrics ],
     Ok compute_metrics).
Proof. intros Hwd. unfold DeepLabV3.train_step. rewrite Hwd. reflexivity. Qed.

(** ** The properties on concrete inputs *)

Lemma init_non_layer_backbone_raises_ValueError_witness :
  isinstance_Layer (OStr "resnet50") = false
  ∧ Examples.init 21 (OStr "resnet50") None None "softmax"
      DeepLabV3.default_weight_decay [Some 512; Some 512; Some 3] None None
    = ([], Raise ValueError).
Proof.
  split; [reflexivity|].
  apply (init_non_layer_backbone_raises_ValueError
           Examples.parse_weights Examples.gfile_exists Examples.parse_model_inputs
           Examples.SpatialPyramidPooling Examples.load_weights).
  reflexivity.
Defined.

Lemma init_missing_weights_raises_ValueError_witness :
  Examples.gfile_exists "missing.h5" = false
  ∧ Examples.init 21 (OLayer Examples.resnet) None None "softmax"
      DeepLabV3.default_weight_decay [Some 512; Some 512; Some 3] None
      (Some "missing.h5")
    = ([EvParseWeights "missing.h5"; EvGfileExists "missing.h5"], Raise ValueError).
Proof.
  split; [reflexivity|].
  apply (init_missing_weights_raises_ValueError
           Examples.parse_weights Examples.gfile_exists Examples.parse_model_inputs
           Examples.SpatialPyramidPooling Examples.load_weights
           21 (OLayer Examples.resnet) None None "softmax"
           DeepLabV3.default_weight_decay [Some 512; Some 512; Some 3] None
           (Some "missing.h5") "missing.h5" "missing.h5").
  - reflexivity.
  - discriminate.
  - reflexivity.
  - reflexivity.
Defined.

(** A 512 by 512 input through a backbone of stride 16: the feature map is 32
    by 32, the factor is 16 on both axes and the output is 512 by 512. *)
Lemma init_output_resolution_witness :
  ∃ tr_pre tr_post m,
    Examples.init 21 (OLayer Examples.resnet) None None "softmax"
      DeepLabV3.default_weight_decay [Some 512; Some 512; Some 3] None None
    = (tr_pre
       ++ [ EvApply (OpLayer "backbone"); EvApply (OpLayer "spatial_pyramid_pooling");
            EvApply (OpUpSampling2D (16, 16) "bilinear");
            EvApply (OpLayer "segmentation_head") ]
       ++ (EvApply <$>
             [ OpConv2D "segmentation_head_conv_0" 256 1 "same" false None None;
               OpBatchNormalization "segmentation_head_norm_0";
               OpActivation "relu"; OpDropout (2 # 10);
               OpConv2D "segmentation_output" 21 1 "same" false (Some "softmax")
                        (Some "float32") ])
       ++ tr_post,
       Ok m)
    ∧ shape (DeepLabV3.outputs m) = [None; Some 512; Some 512; Some 21].
Proof.
  destruct (init_output_resolution
              Examples.parse_weights Examples.gfile_exists Examples.parse_model_inputs
              Examples.SpatialPyramidPooling Examples.load_weights
              21 Examples.resnet None None "softmax" DeepLabV3.default_weight_decay
              [Some 512; Some 512; Some 3] 512 512 None None
              (mkTensor "input" [None; Some 512; Some 512; Some 3] [])
              (mkTensor "input" [None; Some 32; Some 32; Some 2048] [OpLayer "backbone"])
              (mkTensor "input" [None; Some 32; Some 32; Some 256]
                 [OpLayer "backbone"; OpLayer "spatial_pyramid_pooling"])
              (DeepLabV3.outputs Examples.model)
              [] []
              (EvApply <$>
                 [ OpConv2D "segmentation_head_conv_0" 256 1 "same" false None None;
                   OpBatchNormalization "segmentation_head_norm_0";
                   OpActivation "relu"; OpDropout (2 # 10);
                   OpConv2D "segmentation_output" 21 1 "same" false (Some "softmax")
                            (Some "float32") ])
              None None None (Some 2048) (Some 256) (Some 21) 32 32)
    as (tr_pre & tr_post & m & Hinit & _ & _ & Hshape & _).
  - exact I.
  - eexists. split; [reflexivity|]. left. repeat split; reflexivity.
  - reflexivity.
  - reflexivity.
  - reflexivity.
  - reflexivity.
  - reflexivity.
  - reflexivity.
  - vm_compute. reflexivity.
  - reflexivity.
  - exists tr_pre, tr_post, m. split; [exact Hinit | exact Hshape].
Defined.

(** C1, counterexample. A 100 by 100 input through the same backbone: the
    feature map is 7 by 7, the factor is [100 // 7 = 14] and the output is 98
    by 98, not 100 by 100. *)
Lemma init_output_resolution_differs_from_input :
  ∃ tr m,
    Examples.init 21 (OLayer Examples.resnet) None None "softmax"
      DeepLabV3.default_weight_decay [Some 100; Some 100; Some 3] None None
    = (tr, Ok m)
    ∧ shape (DeepLabV3.inputs m) = [None; Some 100; Some 100; Some 3]
    ∧ shape (DeepLabV3.outputs m) = [None; Some 98; Some 98; Some 21]
    ∧ shape (DeepLabV3.outputs m) !! 1%nat ≠ shape (DeepLabV3.inputs m) !! 1%nat
    ∧ shape (DeepLabV3.outputs m) !! 2%nat ≠ shape (DeepLabV3.inputs m) !! 2%nat.
Proof.
  eexists _, _. split; [vm_compute; reflexivity|].
  repeat split; discriminate.
Qed.

(** With height and width left out, the shape the backbone declares is used:
    a backbone declared for 224 by 224 images gives a 224 by 224 model. *)
Example init_infers_shape_from_backbone :
  ∃ tr m,
    Examples.init 21
      (OLayer (Examples.backbone 16 [None; Some 224; Some 224; Some 3]))
      None None "softmax" DeepLabV3.default_weight_decay
      DeepLabV3.default_input_shape None None
    = (EvParseModelInputs :: EvInput :: tr, Ok m)
    ∧ shape (DeepLabV3.inputs m) = [None; Some 224; Some 224; Some 3]
    ∧ shape (DeepLabV3.outputs m) = [None; Some 224; Some 224; Some 21].
Proof. eexists _, _. split; [vm_compute; reflexivity|]. split; reflexivity. Qed.

(** C3, at the failing inputs. With exactly one of height and width
    unresolved and a pooling that accepts a feature map of unknown size, no
    shape is taken from the backbone and the constructor does not raise the
    [ValueError] of an unresolved shape: it calls the backbone and the pooling
    and stops with [TypeError] at the division by the dimension of the
    feature map. *)
Theorem init_one_dimension_unresolved_raises_TypeError :
  Examples.init 21 (OLayer Examples.resnet) (Some Examples.identity_pooling) None
    "softmax" DeepLabV3.default_weight_decay [None; Some 224; Some 3] None None
  = ([ EvParseModelInputs; EvApply (OpLayer "backbone");
       EvApply (OpLayer "activation") ],
     Raise TypeError)
  ∧ Examples.init 21 (OLayer Examples.resnet) (Some Examples.identity_pooling) None
      "softmax" DeepLabV3.default_weight_decay [Some 224; None; Some 3] None None
    = ([ EvParseModelInputs; EvApply (OpLayer "backbone");
         EvApply (OpLayer "activation") ],
       Raise TypeError).
Proof. split; vm_compute; reflexivity. Qed.

(** With the pooling the constructor builds by default the same inputs pass
    both guards as well and reach the backbone; it is the pooling that then
    rejects the feature map of unknown size. *)
Example init_one_dimension_unresolved_default_pooling :
  Examples.init 21 (OLayer Examples.resnet) None None "softmax"
    DeepLabV3.default_weight_decay [None; Some 224; Some 3] None None
  = ([ EvParseModelInputs; EvApply (OpLayer "backbone");
       EvApply (OpLayer "spatial_pyramid_pooling") ],
     Raise ValueError).
Proof. vm_compute. reflexivity. Qed.

(** [Examples.model] is what the constructor returns. *)
Lemma model_constructed :
  Examples.init 21 (OLayer Examples.resnet) None None "softmax"
    DeepLabV3.default_weight_decay [Some 512; Some 512; Some 3] None None
  = (EvParseModelInputs
       :: (EvApply <$>
             [ OpLayer "backbone"; OpLayer "spatial_pyramid_pooling";
               OpUpSampling2D (16, 16) "bilinear"; OpLayer "segmentation_head";
               OpConv2D "segmentation_head_conv_0" 256 1 "same" false None None;
               OpBatchNormalization "segmentation_head_norm_0";
               OpActivation "relu"; OpDropout (2 # 10);
               OpConv2D "segmentation_output" 21 1 "same" false (Some "softmax")
                        (Some "float32") ])
       ++ [EvSuperInit],
     Ok Examples.model).
Proof. vm_compute. reflexivity. Qed.

(** The model of the examples, with the default weight decay [0.0001], trained
    on a single kernel whose only weight is 2: the combined loss is the
    primary loss plus [0.0001 * (2 * 2) / 2]. *)
Lemma train_step_adds_half_l2_penalty_witness :
  ∃ total_loss,
    DeepLabV3.train_step Examples.model [Examples.kernel] 1%Q tt
    = ([ EvForward; EvComputeLoss; EvMinimize total_loss ["conv2d/kernel:0"];
         EvComputeMetrics ], Ok tt)
    ∧ (total_loss == 1 + (1 # 10000) * (4 / 2))%Q.
Proof.
  destruct (train_step_adds_half_l2_penalty Examples.model [Examples.kernel] 1%Q tt)
    as (total_loss & Hrun & Htotal).
  - reflexivity.
  - discriminate.
  - exists total_loss. split; [exact Hrun|].
    rewrite Htotal. reflexivity.
Defined.

(** C2, counterexample. On the same step the penalty the code adds is
    [0.0001 * 2], half of the coefficient times the sum of the squares
    [0.0001 * 4]. *)
Lemma train_step_penalty_is_not_the_sum_of_squares :
  ∃ total_loss,
    truthy (DeepLabV3.weight_decay Examples.model) = true
    ∧ penalised [Examples.kernel] = [Examples.kernel]
    ∧ DeepLabV3.train_step Examples.model [Examples.kernel] 1%Q tt
      = ([ EvForward; EvComputeLoss; EvMinimize total_loss ["conv2d/kernel:0"];
           EvComputeMetrics ], Ok tt)
    ∧ ¬ (total_loss
         == 1 + DeepLabV3.weight_decay Examples.model
                * Qsum ((fun var => sum_squares (v_values var))
                          <$> penalised [Examples.kernel]))%Q.
Proof.
  eexists. split; [reflexivity|]. split; [reflexivity|].
  split; [vm_compute; reflexivity|].
  vm_compute. discriminate.
Qed.

(** The normalization layers of the head are named
    [segmentation_head_norm_<i>]: their variables do not carry ["bn"] in
    their name and are penalised like any kernel. *)
Example head_normalization_variables_are_penalised :
  penalised [ mkVariable "segmentation_head_norm_0/gamma:0" [1%Q];
              mkVariable "bn_conv1/gamma:0" [1%Q];
              mkVariable "segmentation_head_conv_0/kernel:0" [1%Q] ]
  = [ mkVariable "segmentation_head_norm_0/gamma:0" [1%Q];
      mkVariable "segmentation_head_conv_0/kernel:0" [1%Q] ].
Proof. reflexivity. Qed.

Lemma get_config_entries_witness :
  dom (DeepLabV3.get_config Examples.model)
  = {[ "num_classes"; "backbone"; "spatial_pyramid_pooling"; "segmentation_head";
       "segmentation_head_activation"; "weight_decay" ]}
  ∧ DeepLabV3.get_config Examples.model !! "weight_decay" = Some (OFloat (1 # 10000))
  ∧ SegmentationHead.get_config Examples.Layer_get_config Examples.head11
      !! "convolutions" = Some (OInt 2)
  ∧ SegmentationHead.get_config Examples.Layer_get_config Examples.head11
      !! "trainable" = Some (OBool true).
Proof.
  destruct (get_config_entries
              Examples.parse_weights Examples.gfile_exists Examples.parse_model_inputs
              Examples.SpatialPyramidPooling Examples.load_weights
              Examples.Layer_get_config
              21 (OLayer Examples.resnet) None None "softmax"
              DeepLabV3.default_weight_decay [Some 512; Some 512; Some 3] None None
              (EvParseModelInputs
                 :: (EvApply <$>
                       [ OpLayer "backbone"; OpLayer "spatial_pyramid_pooling";
                         OpUpSampling2D (16, 16) "bilinear"; OpLayer "segmentation_head";
                         OpConv2D "segmentation_head_conv_0" 256 1 "same" false None None;
                         OpBatchNormalization "segmentation_head_norm_0";
                         OpActivation "relu"; OpDropout (2 # 10);
                         OpConv2D "segmentation_output" 21 1 "same" false
                                  (Some "softmax") (Some "float32") ])
                 ++ [EvSuperInit])
              Examples.model
              11 2 256 "relu" 0%Q 3 "softmax" false [])
    as [(Hdom & _ & _ & _ & _ & _ & Hwd) (_ & _ & Hconv & _ & _ & _ & _ & _ & _ & Hbase)].
  - vm_compute. reflexivity.
  - split; [exact Hdom|]. split; [exact Hwd|]. split; [exact Hconv|].
    rewrite Hbase; [vm_compute; reflexivity|].
    set_unfold. intros H. repeat destruct H as [H|H]; discriminate H.
Defined.

(** C7, counterexample. The configuration of a head also carries the entries
    of the base layer, here [name], [trainable] and [dtype], which are not
    among the eight; and a model built without a pooling and without a head
    does not report the [None] it was given but the layers the constructor
    built. *)
Lemma get_config_is_not_the_constructor_arguments :
  let head_keys : gset string :=
    {[ "num_classes"; "convolutions"; "filters"; "activations"; "dropout";
       "kernel_size"; "use_bias"; "activation" ]} in
  (SegmentationHead.get_config Examples.Layer_get_config Examples.head11 !! "name"
   = Some (OStr "segmentation_head")
   ∧ ("name" ∉ head_keys)
   ∧ dom (SegmentationHead.get_config Examples.Layer_get_config Examples.head11)
     ≠ head_keys)
  ∧ (∃ tr,
       Examples.init 21 (OLayer Examples.resnet) None None "softmax"
         DeepLabV3.default_weight_decay [Some 512; Some 512; Some 3] None None
       = (tr, Ok Examples.model)
       ∧ DeepLabV3.get_config Examples.model !! "spatial_pyramid_pooling" ≠ Some ONone
       ∧ DeepLabV3.get_config Examples.model !! "segmentation_head" ≠ Some ONone).
Proof.
  intros head_keys.
  assert (SegmentationHead.get_config Examples.Layer_get_config Examples.head11 !! "name"
          = Some (OStr "segmentation_head")) as Hname by (vm_compute; reflexivity).
  assert ("name" ∉ head_keys) as Hnotin.
  { subst head_keys. set_unfold. intros H. repeat destruct H as [H|H]; discriminate H. }
  split.
  - split; [exact Hname|]. split; [exact Hnotin|].
    intros Hdom. apply Hnotin. rewrite <- Hdom. apply elem_of_dom. by eexists.
  - eexists. split; [apply model_constructed|].
    split; vm_compute; discriminate.
Qed.

(** * Further properties *)

(** ** The segmentation head, any configuration *)

(** The key [next(iter(sorted(d)))] returns is the only smallest key. *)
Lemma lowest_level_unique (d : gmap Z KerasTensor) (k : Z) (x : KerasTensor) :
  d !! k = Some x ->
  (∀ k', is_Some (d !! k') -> k ≤ k') ->
  next_iter (sorted d) = Ok k.
Proof.
  intros Hx Hmin.
  assert (d ≠ ∅) as Hne by (intros ->; by rewrite lookup_empty in Hx).
  destruct (lowest_level_spec d Hne) as (k0 & x0 & Hnext & Hx0 & Hmin0).
  assert (k0 = k) as ->; [|done].
  assert (k ≤ k0) by (apply Hmin; eauto).
  assert (k0 ≤ k) by (apply Hmin0; eauto).
  lia.
Qed.

Lemma call_lowest_level (self : SegmentationHead.t) (d : gmap Z KerasTensor) k x :
  d !! k = Some x ->
  (∀ k', is_Some (d !! k') -> k ≤ k') ->
  SegmentationHead.call self (ADict d) = SegmentationHead.forward self x.
Proof.
  intros Hx Hmin. unfold SegmentationHead.call.
  rewrite (lowest_level_unique d k x Hx Hmin), bind_lift_ok.
  unfold dict_getitem. by rewrite Hx, bind_lift_ok.
Qed.

(** The forward pass of a head built with any convolution count: the blocks
    of the indices of [range(convolutions)], then the projection. *)
Lemma head_forward_any (convolutions : Z) nc f acts d k act ub kw (x : KerasTensor) :
  let self := SegmentationHead.__init__ nc convolutions f acts d k act ub kw in
  let blocks := concat (block_ops self <$> SegmentationHead.range convolutions) in
  let projection := SegmentationHead._classification_layer self in
  is_feature_map x ->
  SegmentationHead.forward self x
  = (EvApply <$> (blocks ++ [projection]),
     Ok (after x (Some nc) (blocks ++ [projection]))).
Proof.
  intros self blocks projection Hx.
  pose proof (head_forward_spec (Z.to_nat convolutions) nc f acts d k act ub kw x Hx)
    as Hspec.
  cbv zeta in Hspec.
  unfold SegmentationHead.forward, SegmentationHead.block, SegmentationHead.__init__,
    block_ops, SegmentationHead.range in *.
  cbn [SegmentationHead._conv_layers SegmentationHead._bn_layers
       SegmentationHead._classification_layer SegmentationHead.activations
       SegmentationHead.dropout SegmentationHead.dropout_layer
       SegmentationHead.filters SegmentationHead.kernel_size
       SegmentationHead.use_bias] in *.
  rewrite Nat2Z.id in Hspec. exact Hspec.
Qed.

(** X1. Whatever the convolution count, and whatever the filters, kernel
    size, dropout rate and number of classes among those the framework
    accepts, and whatever the channels of the input: on a pyramid whose lowest
    level is a feature map, the head returns a tensor of the resolution of
    that level with [num_classes] channels. *)
Theorem head_call_output_shape (convolutions : Z) nc f acts d k act ub kw
    (inputs : gmap Z KerasTensor) (lowest_level : Z) (x : KerasTensor)
    (n h w c : dim) :
  let self := SegmentationHead.__init__ nc convolutions f acts d k act ub kw in
  valid_head_arguments nc f k d ->
  inputs !! lowest_level = Some x ->
  (∀ level, is_Some (inputs !! level) -> lowest_level ≤ level) ->
  shape x = [n; h; w; c] ->
  ∃ tr out,
    SegmentationHead.call self (ADict inputs) = (tr, Ok out)
    ∧ shape out = [n; h; w; Some nc]
    ∧ t_name out = t_name x.
Proof.
  intros self _ Hx Hmin Hshape.
  assert (is_feature_map x) as Hfm by (unfold is_feature_map; by rewrite Hshape).
  rewrite (call_lowest_level self inputs lowest_level x Hx Hmin).
  subst self. rewrite (head_forward_any convolutions nc f acts d k act ub kw x Hfm).
  eexists _, _. split; [reflexivity|].
  unfold after. rewrite Hshape. split; reflexivity.
Qed.

(** X2. A convolution count of zero or less builds no block: the lowest
    level is projected directly. *)
Theorem head_call_without_blocks (convolutions : Z) nc f acts d k act ub kw
    (inputs : gmap Z KerasTensor) (lowest_level : Z) (x : KerasTensor) :
  let self := SegmentationHead.__init__ nc convolutions f acts d k act ub kw in
  let projection :=
    OpConv2D "segmentation_output" nc 1 "same" false (Some act) (Some "float32") in
  convolutions ≤ 0 ->
  inputs !! lowest_level = Some x ->
  (∀ level, is_Some (inputs !! level) -> lowest_level ≤ level) ->
  is_feature_map x ->
  SegmentationHead._conv_layers self = []
  ∧ SegmentationHead._bn_layers self = []
  ∧ SegmentationHead.call self (ADict inputs)
    = ([EvApply projection], Ok (after x (Some nc) [projection])).
Proof.
  intros self projection Hz Hx Hmin Hfm.
  assert (SegmentationHead.range convolutions = []) as Hrange.
  { unfold SegmentationHead.range. by replace (Z.to_nat convolutions) with 0%nat by lia. }
  split; [|split].
  - subst self. unfold SegmentationHead.__init__.
    cbn [SegmentationHead._conv_layers]. by rewrite Hrange.
  - subst self. unfold SegmentationHead.__init__.
    cbn [SegmentationHead._bn_layers]. by rewrite Hrange.
  - rewrite (call_lowest_level self inputs lowest_level x Hx Hmin).
    subst self. rewrite (head_forward_any convolutions nc f acts d k act ub kw x Hfm).
    by rewrite Hrange.
Qed.

(** X3. The head reads the lowest level only: the other levels of the
    pyramid do not change what it returns or what it logs. *)
Theorem head_call_ignores_other_levels (self : SegmentationHead.t)
    (inputs : gmap Z KerasTensor) (lowest_level : Z) (x : KerasTensor) :
  inputs !! lowest_level = Some x ->
  (∀ level, is_Some (inputs !! level) -> lowest_level ≤ level) ->
  SegmentationHead.call self (ADict inputs)
  = SegmentationHead.call self (ADict {[ lowest_level := x ]}).
Proof.
  intros Hx Hmin.
  rewrite (call_lowest_level self inputs lowest_level x Hx Hmin).
  symmetry. apply (call_lowest_level self _ lowest_level x).
  - apply lookup_singleton_eq.
  - intros level [y Hy]. apply lookup_singleton_Some in Hy as [<- _]. lia.
Qed.

(** ** Construction of the model, step by step *)

Section Steps.

Variable parse_weights : string -> bool -> string -> result string.
Variable gfile_exists : string -> bool.
Variable parse_model_inputs : list dim -> option KerasTensor -> result KerasTensor.
Variable SpatialPyramidPooling : list Z -> Layer.
Variable load_weights : string -> result unit.
Variable compute_output_shape : Layer -> list dim -> result (list dim).

Local Abbreviation init := (DeepLabV3.__init__ parse_weights gfile_exists
                          parse_model_inputs SpatialPyramidPooling load_weights).
Local Abbreviation weights_resolve := (weights_resolve parse_weights gfile_exists).
Local Abbreviation load_outcome := (load_outcome load_weights).
Local Abbreviation pooling_or_default := (pooling_or_default SpatialPyramidPooling).
Local Abbreviation resolved_input := (resolved_input parse_model_inputs).
Local Abbreviation layers_run := (layers_run parse_model_inputs SpatialPyramidPooling).
Local Abbreviation build := (DeepLabV3.build compute_output_shape).
Local Abbreviation tail_of := (constructor_tail parse_weights SpatialPyramidPooling load_weights).

Lemma bind_outcome {A B} (m : M A) (b : B) tr r :
  m = (tr, r) ->
  bind m (fun _ => ret b)
  = (tr, match r with Ok _ => Ok b | Raise e => Raise e end).
Proof. intros ->. destruct r; cbn; by rewrite ?app_nil_r. Qed.

Lemma bind_then {A B} (m : M A) (f : A -> M B) tr a tr' r :
  m = (tr, Ok a) -> f a = (tr', r) -> bind m f = (tr ++ tr', r).
Proof. intros -> Hf. unfold bind. by rewrite Hf. Qed.

Ltac next := eapply bind_then; [first [eassumption | reflexivity] | cbn beta iota].
Ltac next_layer :=
  eapply bind_then;
    [unfold call_layer; eapply bind_then; [reflexivity | eassumption]|];
  cbn beta iota.

(** The test of the weights reference passes. *)
Lemma weights_check_passes (weights : option string) (path : string) :
  weights_resolve weights path ->
  match weights with
  | Some w =>
      if str_truthy weights then
        let* path := DeepLabV3.resolve parse_weights w in
        let* found := DeepLabV3.exists_ gfile_exists path in
        if negb found then raise ValueError else ret tt
      else ret tt
  | None => ret tt
  end = (check_trace weights path, Ok tt).
Proof.
  intros Hw. unfold check_trace. destruct weights as [w|]; [|reflexivity].
  destruct Hw as [Hp Hex]. destruct (str_truthy (Some w)); [|reflexivity].
  unfold DeepLabV3.resolve, DeepLabV3.exists_. rewrite Hp. cbn.
  by rewrite Hex.
Qed.

(** The loading of the weights. *)
Lemma weights_load_step (weights : option string) (path : string) :
  weights_resolve weights path ->
  match weights with
  | Some w =>
      let* path := DeepLabV3.resolve parse_weights w in
      let* _ := log (EvLoadWeights path) in
      lift (load_weights path)
  | None => ret tt
  end = (load_trace weights path, load_outcome weights path).
Proof.
  intros Hw. unfold load_trace, load_outcome. destruct weights as [w|]; [|reflexivity].
  destruct Hw as [Hp _]. unfold DeepLabV3.resolve. rewrite Hp. cbn.
  by destruct (load_weights path).
Qed.

(** The constructor up to [height = input_shape[0]]: the weights reference is
    tested, the input is parsed, the shape is resolved; then comes
    [constructor_tail] on the resolved shape. *)
Lemma init_resolves nc (backbone_layer : Layer) pooling head act wd input_shape
    input_tensor weights path (H W : Z) (inputs : KerasTensor) :
  weights_resolve weights path ->
  resolved_input backbone_layer input_shape input_tensor H W inputs ->
  ∃ shape0,
    shape0 !! 0%nat = Some (Some H) ∧ shape0 !! 1%nat = Some (Some W)
    ∧ init nc (OLayer backbone_layer) pooling head act wd input_shape input_tensor
           weights
      = ((check_trace weights path ++ input_trace input_shape)
         ++ (tail_of nc (OLayer backbone_layer) backbone_layer pooling head act wd
               weights shape0 inputs).1,
         (tail_of nc (OLayer backbone_layer) backbone_layer pooling head act wd
            weights shape0 inputs).2).
Proof.
  intros Hw (parsed & Hparse & Hres).
  assert (∀ s : list dim,
            s !! 0%nat = Some (Some H) -> both_None s = Ok false) as Hboth.
  { intros s H0. unfold both_None, getitem, dim in *. by rewrite H0. }
  assert (∀ (m : M DeepLabV3.t), m = (m.1, m.2)) as Hpair by (by intros [? ?]).
  destruct Hres as [(H0 & H1 & ->) | (Hnone & bshape & Hb & H0 & H1 & ->)].
  - exists input_shape. split; [done|]. split; [done|].
    unfold input_trace. rewrite (Hboth _ H0).
    etransitivity.
    { unfold DeepLabV3.__init__. rewrite bind_ret_l.
      eapply bind_then; [by apply weights_check_passes|].
      rewrite Hparse. next. rewrite ?(Hboth _ H0). do 2 next.
      rewrite ?(Hboth _ H0). do 2 next. apply Hpair. }
    cbn [app]. by rewrite <- app_assoc.
  - exists (tail bshape). split; [done|]. split; [done|].
    unfold input_trace. rewrite Hnone.
    etransitivity.
    { unfold DeepLabV3.__init__. rewrite bind_ret_l.
      eapply bind_then; [by apply weights_check_passes|].
      rewrite Hparse. next. rewrite Hnone. next.
      eapply bind_then.
      { rewrite Hb. eapply bind_then; [reflexivity|]. cbn beta iota.
        eapply bind_then; [reflexivity|]. reflexivity. }
      cbn beta iota. rewrite ?(Hboth _ H0). do 2 next. apply Hpair. }
    cbn [app]. by rewrite <- app_assoc.
Qed.

Lemma getitem_lookup {A} (l : list A) (i : nat) (a : A) :
  l !! i = Some a -> getitem l i = Ok a.
Proof. intros Hl. unfold getitem. by rewrite Hl. Qed.

Lemma apply_upsampling (size : Z * Z) (x : KerasTensor) :
  is_feature_map x ->
  apply (OpUpSampling2D size "bilinear") x
  = ([EvApply (OpUpSampling2D size "bilinear")], Ok (upsampled size x)).
Proof.
  unfold is_feature_map, upsampled, apply. destruct x as [nm s hist]. cbn [shape].
  destruct s as [|n [|h [|w [|c [|? ?]]]]]; try discriminate.
  intros _. by destruct size.
Qed.

(** The rest of the constructor when every call goes through. *)
Lemma tail_runs nc backbone (backbone_layer : Layer) pooling head act wd weights path
    (shape0 : list dim) (H W fh fw : Z) (inputs fm po out : KerasTensor)
    tr_b tr_p tr_h (n c : dim) :
  weights_resolve weights path ->
  shape0 !! 0%nat = Some (Some H) -> shape0 !! 1%nat = Some (Some W) ->
  l_call backbone_layer (ATensor inputs) = (tr_b, Ok fm) ->
  shape fm = [n; Some fh; Some fw; c] ->
  0 < H / fh -> 0 < W / fw ->
  l_call (pooling_or_default pooling) (ATensor fm) = (tr_p, Ok po) ->
  is_feature_map po ->
  l_call (head_or_default nc act head)
         (ADict {[ 1 := upsampled (H / fh, W / fw) po ]}) = (tr_h, Ok out) ->
  tail_of nc backbone backbone_layer pooling head act wd weights shape0 inputs
  = ([EvApply (OpLayer (l_name backbone_layer))] ++ tr_b
     ++ [EvApply (OpLayer (l_name (pooling_or_default pooling)))] ++ tr_p
     ++ [ EvApply (OpUpSampling2D (H / fh, W / fw) "bilinear");
          EvApply (OpLayer (l_name (head_or_default nc act head))) ] ++ tr_h
     ++ [EvSuperInit] ++ load_trace weights path,
     match load_outcome weights path with
     | Ok _ =>
         Ok {| DeepLabV3.num_classes := nc;
               DeepLabV3.backbone := backbone;
               DeepLabV3.spatial_pyramid_pooling := pooling_or_default pooling;
               DeepLabV3.segmentation_head := head_or_default nc act head;
               DeepLabV3.segmentation_head_activation := act;
               DeepLabV3.weight_decay := wd;
               DeepLabV3.inputs := inputs;
               DeepLabV3.outputs := out |}
     | Raise e => Raise e
     end).
Proof.
  intros Hw H0 H1 Hfm Hfms Hsh Hsw Hpo Hpos Hout.
  assert (fh ≠ 0) as Hfh by (intros ->; rewrite Z.div_0_r in Hsh; lia).
  assert (fw ≠ 0) as Hfw by (intros ->; rewrite Z.div_0_r in Hsw; lia).
  assert (floordiv (Some H) (Some fh) = Ok (H / fh)) as Hdh.
  { unfold floordiv. by rewrite decide_False. }
  assert (floordiv (Some W) (Some fw) = Ok (W / fw)) as Hdw.
  { unfold floordiv. by rewrite decide_False. }
  pose proof (apply_upsampling (H / fh, W / fw) po Hpos) as Hup.
  etransitivity.
  { unfold constructor_tail.
    rewrite (getitem_lookup (A:=dim) _ _ _ H0), (getitem_lookup (A:=dim) _ _ _ H1).
    do 2 next. next_layer. next_layer.
    rewrite Hfms. cbn [getitem lookup list_lookup]. rewrite Hdh, Hdw.
    do 2 next. rewrite (UpSampling2D_positive _ _ _ Hsh Hsw). next.
    eapply bind_then; [exact Hup|]. cbn beta iota.
    next_layer. next.
    apply bind_outcome. by apply weights_load_step. }
  cbn [app]. by rewrite <- ?app_assoc.
Qed.

(** The rest of the constructor when the backbone raises. *)
Lemma tail_backbone_raises nc backbone (backbone_layer : Layer) pooling head act wd
    weights (shape0 : list dim) (H W : Z) (inputs : KerasTensor) tr_b e :
  shape0 !! 0%nat = Some (Some H) -> shape0 !! 1%nat = Some (Some W) ->
  l_call backbone_layer (ATensor inputs) = (tr_b, Raise e) ->
  tail_of nc backbone backbone_layer pooling head act wd weights shape0 inputs
  = ([EvApply (OpLayer (l_name backbone_layer))] ++ tr_b, Raise e).
Proof.
  intros H0 H1 Hfm. unfold constructor_tail.
  rewrite (getitem_lookup (A:=dim) _ _ _ H0), (getitem_lookup (A:=dim) _ _ _ H1), !bind_lift_ok.
  apply bind_err. unfold call_layer. eapply bind_then; [reflexivity | exact Hfm].
Qed.

(** The rest of the constructor when the height cannot be divided by the
    height of the feature map. *)
Lemma tail_division_raises nc backbone (backbone_layer : Layer) pooling head act wd
    weights (shape0 : list dim) (H W : Z) (inputs fm po : KerasTensor)
    tr_b tr_p (d : dim) e :
  shape0 !! 0%nat = Some (Some H) -> shape0 !! 1%nat = Some (Some W) ->
  l_call backbone_layer (ATensor inputs) = (tr_b, Ok fm) ->
  shape fm !! 1%nat = Some d ->
  floordiv (Some H) d = Raise e ->
  l_call (pooling_or_default pooling) (ATensor fm) = (tr_p, Ok po) ->
  tail_of nc backbone backbone_layer pooling head act wd weights shape0 inputs
  = ([EvApply (OpLayer (l_name backbone_layer))] ++ tr_b
     ++ [EvApply (OpLayer (l_name (pooling_or_default pooling)))] ++ tr_p,
     Raise e).
Proof.
  intros H0 H1 Hfm Hd Hdiv Hpo.
  etransitivity.
  { unfold constructor_tail.
    rewrite (getitem_lookup (A:=dim) _ _ _ H0), (getitem_lookup (A:=dim) _ _ _ H1).
    do 2 next. next_layer. next_layer.
    rewrite (getitem_lookup (A:=dim) _ _ _ Hd), Hdiv. reflexivity. }
  cbn [app]. by rewrite <- ?app_assoc, ?app_nil_r.
Qed.

(** What the constructor logs and returns when every call goes through. *)
Lemma init_runs_steps
    {nc} {backbone_layer : Layer} {pooling head act input_shape input_tensor
    weights path} {H W fh fw : Z} {inputs fm po out : KerasTensor} {tr_b tr_p tr_h} :
  weights_resolve weights path ->
  layers_run nc act backbone_layer pooling head input_shape input_tensor
             H W fh fw inputs fm po out tr_b tr_p tr_h ->
  ∀ wd,
  init nc (OLayer backbone_layer) pooling head act wd input_shape input_tensor weights
  = (check_trace weights path ++ input_trace input_shape
     ++ [EvApply (OpLayer (l_name backbone_layer))] ++ tr_b
     ++ [EvApply (OpLayer (l_name (pooling_or_default pooling)))] ++ tr_p
     ++ [ EvApply (OpUpSampling2D (H / fh, W / fw) "bilinear");
          EvApply (OpLayer (l_name (head_or_default nc act head))) ] ++ tr_h
     ++ [EvSuperInit] ++ load_trace weights path,
     match load_outcome weights path with
     | Ok _ =>
         Ok {| DeepLabV3.num_classes := nc;
               DeepLabV3.backbone := OLayer backbone_layer;
               DeepLabV3.spatial_pyramid_pooling := pooling_or_default pooling;
               DeepLabV3.segmentation_head := head_or_default nc act head;
               DeepLabV3.segmentation_head_activation := act;
               DeepLabV3.weight_decay := wd;
               DeepLabV3.inputs := inputs;
               DeepLabV3.outputs := out |}
     | Raise e => Raise e
     end).
Proof.
  intros Hw (Hres & Hfm & (n & c & Hfms) & Hsh & Hsw & Hpo & Hpos & Hout) wd.
  destruct (init_resolves nc backbone_layer pooling head act wd input_shape
              input_tensor weights path H W inputs Hw Hres)
    as (shape0 & H0 & H1 & ->).
  rewrite (tail_runs nc (OLayer backbone_layer) backbone_layer pooling head act wd
             weights path shape0 H W fh fw inputs fm po out tr_b tr_p tr_h n c);
    try done.
  cbn [fst snd]. by rewrite <- app_assoc.
Qed.

(** X4. When every call goes through, the constructor runs its steps in this
    order: the test of the weights reference (only for a reference that is
    not empty), the parsing of the input (and [layers.Input] when the shape
    comes from the backbone), the backbone, the pooling, the bilinear
    upsampling by [(H // fh, W // fw)], the head on the upsampled tensor at
    level 1, [keras.Model.__init__] and last the loading of the weights (for
    any reference that is not [None], the empty one included). It returns the
    model unless the loading raises, and then raises what the loading
    raised. *)
Theorem init_runs_steps_in_order
    nc (backbone_layer : Layer) pooling head act wd input_shape input_tensor
    weights path (H W fh fw : Z) (inputs fm po out : KerasTensor) tr_b tr_p tr_h :
  weights_resolve weights path ->
  layers_run nc act backbone_layer pooling head input_shape input_tensor
             H W fh fw inputs fm po out tr_b tr_p tr_h ->
  init nc (OLayer backbone_layer) pooling head act wd input_shape input_tensor weights
  = (check_trace weights path ++ input_trace input_shape
     ++ [EvApply (OpLayer (l_name backbone_layer))] ++ tr_b
     ++ [EvApply (OpLayer (l_name (pooling_or_default pooling)))] ++ tr_p
     ++ [ EvApply (OpUpSampling2D (H / fh, W / fw) "bilinear");
          EvApply (OpLayer (l_name (head_or_default nc act head))) ] ++ tr_h
     ++ [EvSuperInit] ++ load_trace weights path,
     match load_outcome weights path with
     | Ok _ =>
         Ok {| DeepLabV3.num_classes := nc;
               DeepLabV3.backbone := OLayer backbone_layer;
               DeepLabV3.spatial_pyramid_pooling := pooling_or_default pooling;
               DeepLabV3.segmentation_head := head_or_default nc act head;
               DeepLabV3.segmentation_head_activation := act;
               DeepLabV3.weight_decay := wd;
               DeepLabV3.inputs := inputs;
               DeepLabV3.outputs := out |}
     | Raise e => Raise e
     end).
Proof. intros Hw Hrun. exact (init_runs_steps Hw Hrun wd). Qed.

(** X5. An exception of the backbone ends the construction with that
    exception: the pooling, the upsampling, the head, [keras.Model.__init__]
    and the loading of the weights do not run. *)
Theorem init_backbone_exception_propagates
    nc (backbone_layer : Layer) pooling head act wd input_shape input_tensor
    weights path (H W : Z) (inputs : KerasTensor) tr_b e :
  weights_resolve weights path ->
  resolved_input backbone_layer input_shape input_tensor H W inputs ->
  l_call backbone_layer (ATensor inputs) = (tr_b, Raise e) ->
  init nc (OLayer backbone_layer) pooling head act wd input_shape input_tensor weights
  = (check_trace weights path ++ input_trace input_shape
     ++ [EvApply (OpLayer (l_name backbone_layer))] ++ tr_b,
     Raise e).
Proof.
  intros Hw Hres Hfm.
  destruct (init_resolves nc backbone_layer pooling head act wd input_shape
              input_tensor weights path H W inputs Hw Hres)
    as (shape0 & H0 & H1 & ->).
  rewrite (tail_backbone_raises nc (OLayer backbone_layer) backbone_layer pooling
             head act wd weights shape0 H W inputs tr_b e H0 H1 Hfm).
  cbn [fst snd]. by rewrite <- app_assoc.
Qed.

(** X6. A feature map whose height is unknown or zero ends the construction
    at [height // feature_map.shape[1]], with [TypeError] or with
    [ZeroDivisionError]; the backbone and the pooling have run by then, the
    upsampling and the head have not. *)
Theorem init_height_division_raises
    nc (backbone_layer : Layer) pooling head act wd input_shape input_tensor
    weights path (H W : Z) (inputs fm po : KerasTensor) tr_b tr_p (d : dim) :
  weights_resolve weights path ->
  resolved_input backbone_layer input_shape input_tensor H W inputs ->
  l_call backbone_layer (ATensor inputs) = (tr_b, Ok fm) ->
  shape fm !! 1%nat = Some d ->
  d = None ∨ d = Some 0 ->
  l_call (pooling_or_default pooling) (ATensor fm) = (tr_p, Ok po) ->
  init nc (OLayer backbone_layer) pooling head act wd input_shape input_tensor weights
  = (check_trace weights path ++ input_trace input_shape
     ++ [EvApply (OpLayer (l_name backbone_layer))] ++ tr_b
     ++ [EvApply (OpLayer (l_name (pooling_or_default pooling)))] ++ tr_p,
     Raise (match d with None => TypeError | Some _ => ZeroDivisionError end)).
Proof.
  intros Hw Hres Hfm Hd Hcase Hpo.
  destruct (init_resolves nc backbone_layer pooling head act wd input_shape
              input_tensor weights path H W inputs Hw Hres)
    as (shape0 & H0 & H1 & ->).
  rewrite (tail_division_raises nc (OLayer backbone_layer) backbone_layer pooling
             head act wd weights shape0 H W inputs fm po tr_b tr_p d
             (match d with None => TypeError | Some _ => ZeroDivisionError end)
             H0 H1 Hfm Hd); [|by destruct Hcase as [-> | ->]|done].
  cbn [fst snd]. by rewrite <- app_assoc.
Qed.

(** X7. With the head the constructor builds by default and a pooling that
    keeps the resolution of the feature map, the output of the model is never
    larger than the input and falls short of it by less than the size of the
    feature map, on each axis; it has [num_classes] channels. *)
Theorem init_output_within_input_resolution
    nc (backbone_layer : Layer) pooling act wd input_shape input_tensor
    weights path (H W fh fw : Z) (inputs fm po : KerasTensor) tr_b tr_p
    (n n' c cp : dim) :
  weights_resolve weights path ->
  load_outcome weights path = Ok tt ->
  resolved_input backbone_layer input_shape input_tensor H W inputs ->
  l_call backbone_layer (ATensor inputs) = (tr_b, Ok fm) ->
  shape fm = [n; Some fh; Some fw; c] ->
  0 < fh ≤ H -> 0 < fw ≤ W ->
  l_call (pooling_or_default pooling) (ATensor fm) = (tr_p, Ok po) ->
  shape po = [n'; Some fh; Some fw; cp] ->
  ∃ tr m oh ow,
    init nc (OLayer backbone_layer) pooling None act wd input_shape input_tensor
         weights = (tr, Ok m)
    ∧ shape (DeepLabV3.outputs m) = [n'; Some oh; Some ow; Some nc]
    ∧ H - fh < oh ≤ H
    ∧ W - fw < ow ≤ W.
Proof.
  intros Hw Hload Hres Hfm Hfms Hfh Hfw Hpo Hpos.
  assert (0 < H / fh) as Hsh by (apply Z.div_str_pos; lia).
  assert (0 < W / fw) as Hsw by (apply Z.div_str_pos; lia).
  assert (is_feature_map po) as Hpofm by (unfold is_feature_map; by rewrite Hpos).
  assert (shape (upsampled (H / fh, W / fw) po)
          = [n'; Some (H / fh * fh); Some (W / fw * fw); cp]) as Hups.
  { unfold upsampled. by rewrite Hpos. }
  destruct (default_head_keeps_resolution nc act _ _ _ _ _ Hups)
    as (tr_h & out & Hout & Houts).
  destruct (init_resolves nc backbone_layer pooling None act wd input_shape
              input_tensor weights path H W inputs Hw Hres)
    as (shape0 & H0 & H1 & Hinit).
  rewrite (tail_runs nc (OLayer backbone_layer) backbone_layer pooling None act wd
             weights path shape0 H W fh fw inputs fm po out tr_b tr_p tr_h n c)
    in Hinit; try done.
  rewrite Hload in Hinit. cbn [fst snd] in Hinit.
  eexists _, _, (H / fh * fh), (W / fw * fw). split; [exact Hinit|].
  cbn [DeepLabV3.outputs]. split; [exact Houts|].
  pose proof (Z.div_mod H fh) as Eh. pose proof (Z.mod_pos_bound H fh) as Bh.
  pose proof (Z.div_mod W fw) as Ew. pose proof (Z.mod_pos_bound W fw) as Bw.
  lia.
Qed.

(** X8. [build] stores a layer exactly when the shape it is given has a known
    height and width at positions 1 and 2, the backbone computes an output
    shape whose height and width are known and not zero, and the floors of the
    quotients are positive; the layer is then the bilinear upsampling by these
    floors. In every other case [build] raises. *)
Theorem build_spec (self : DeepLabV3.t) (input_shape : list dim) (up_layer : op) :
  build self input_shape = Ok up_layer
  ↔ ∃ l H W fh fw feature_map_shape,
      DeepLabV3.backbone self = OLayer l
      ∧ input_shape !! 1%nat = Some (Some H)
      ∧ input_shape !! 2%nat = Some (Some W)
      ∧ compute_output_shape l input_shape = Ok feature_map_shape
      ∧ feature_map_shape !! 1%nat = Some (Some fh)
      ∧ feature_map_shape !! 2%nat = Some (Some fw)
      ∧ fh ≠ 0 ∧ fw ≠ 0
      ∧ 0 < H / fh ∧ 0 < W / fw
      ∧ up_layer = OpUpSampling2D (H / fh, W / fw) "bilinear".
Proof.
  unfold DeepLabV3.build, and_then, getitem, floordiv, dim in *. split.
  - intros Hb.
    destruct (input_shape !! 1%nat) as [height|] eqn:E1;
      cbn beta iota in Hb; [|discriminate Hb].
    destruct (input_shape !! 2%nat) as [width|] eqn:E2;
      cbn beta iota in Hb; [|discriminate Hb].
    destruct (DeepLabV3.backbone self) as [| | | | |l] eqn:Eb;
      cbn beta iota in Hb; try discriminate Hb.
    destruct (compute_output_shape l input_shape) as [fms|e] eqn:Ec;
      cbn beta iota in Hb; [|discriminate Hb].
    destruct (fms !! 1%nat) as [d1|] eqn:F1; cbn beta iota in Hb; [|discriminate Hb].
    destruct height as [H|], d1 as [fh|]; cbn beta iota in Hb; try discriminate Hb.
    destruct (decide (fh = 0)) as [|Hfh]; cbn beta iota in Hb; [discriminate Hb|].
    destruct (fms !! 2%nat) as [d2|] eqn:F2; cbn beta iota in Hb; [|discriminate Hb].
    destruct width as [W|], d2 as [fw|]; cbn beta iota in Hb; try discriminate Hb.
    destruct (decide (fw = 0)) as [|Hfw]; cbn beta iota in Hb; [discriminate Hb|].
    unfold UpSampling2D in Hb. cbn [fst snd] in Hb.
    destruct (decide (0 < H / fh ∧ 0 < W / fw)) as [[Hsh Hsw]|]; [|discriminate Hb].
    injection Hb as <-. by exists l, H, W, fh, fw, fms.
  - intros (l & H & W & fh & fw & fms & -> & -> & -> & -> & -> & -> & Hfh & Hfw
            & Hsh & Hsw & ->).
    cbn beta iota. rewrite !decide_False by done. cbn beta iota.
    by apply UpSampling2D_positive.
Qed.


End Steps.

(** ** The training step, further *)


(** The step with a coefficient that is not zero and a first variable to
    penalise. *)
Lemma train_step_run {Metrics : Type} (self : DeepLabV3.t)
    (trainable_variables : list tfVariable) (compute_loss : Q)
    (compute_metrics : Metrics) (var : tfVariable) (rest : list tfVariable) :
  truthy (DeepLabV3.weight_decay self) = true ->
  penalised trainable_variables = var :: rest ->
  DeepLabV3.train_step self trainable_variables compute_loss compute_metrics
  = ([ EvForward; EvComputeLoss;
       EvMinimize
         (compute_loss
          + foldl Qplus (DeepLabV3.weight_decay self * l2_loss var)
              ((fun v => DeepLabV3.weight_decay self * l2_loss v) <$> rest))%Q
         (v_name <$> trainable_variables);
       EvComputeMetrics ],
     Ok compute_metrics).
Proof.
  intros Hwd Hp. unfold DeepLabV3.train_step. rewrite Hwd.
  rewrite collect_reg_losses_spec, Hp. reflexivity.
Qed.

Lemma sum_squares_nonneg (values : list Q) : (0 <= sum_squares values)%Q.
Proof.
  induction values as [|x values IH]; cbn [sum_squares foldr]; [done|].
  apply Qle_trans with (0 + 0)%Q; [done|].
  apply Qplus_le_compat; [|exact IH].
  unfold Qle, Qmult. cbn. nia.
Qed.

Lemma l2_loss_nonneg (var : tfVariable) : (0 <= l2_loss var)%Q.
Proof.
  unfold l2_loss, Qdiv. apply Qmult_le_0_compat; [apply sum_squares_nonneg|done].
Qed.

Lemma foldl_Qplus_nonneg (x : Q) (l : list Q) :
  (0 <= x)%Q -> Forall (fun y => 0 <= y)%Q l -> (0 <= foldl Qplus x l)%Q.
Proof.
  revert x. induction l as [|y l IH]; intros x Hx Hl; cbn [foldl]; [done|].
  apply Forall_cons in Hl as [Hy Hl]. apply IH; [|done].
  apply Qle_trans with (0 + 0)%Q; [done|]. by apply Qplus_le_compat.
Qed.


(** X11. With a positive coefficient the combined loss handed to the
    optimizer is never below the primary loss. *)
Theorem train_step_penalty_nonnegative {Metrics : Type} (self : DeepLabV3.t)
    (trainable_variables : list tfVariable) (compute_loss : Q)
    (compute_metrics : Metrics) :
  (0 < DeepLabV3.weight_decay self)%Q ->
  penalised trainable_variables ≠ [] ->
  ∃ total_loss : Q,
    DeepLabV3.train_step self trainable_variables compute_loss compute_metrics
    = ([ EvForward; EvComputeLoss;
         EvMinimize total_loss (v_name <$> trainable_variables);
         EvComputeMetrics ], Ok compute_metrics)
    ∧ (compute_loss <= total_loss)%Q.
Proof.
  intros Hpos Hne.
  assert (truthy (DeepLabV3.weight_decay self) = true) as Hwd.
  { apply truthy_spec. intros E. rewrite E in Hpos. by apply Qlt_irrefl in Hpos. }
  destruct (penalised trainable_variables) as [|var rest] eqn:Hp; [done|].
  eexists. split; [by apply train_step_run|].
  assert (∀ v, 0 <= DeepLabV3.weight_decay self * l2_loss v)%Q as Hterm.
  { intros v. apply Qmult_le_0_compat; [by apply Qlt_le_weak | apply l2_loss_nonneg]. }
  rewrite <- (Qplus_0_r compute_loss) at 1.
  apply Qplus_le_r. apply foldl_Qplus_nonneg; [apply Hterm|].
  apply Forall_fmap, Forall_true. intros v. apply Hterm.
Qed.

(** ["bn" in name], as a statement on strings. *)
Lemma prefix_spec (sub s : string) :
  String.prefix sub s = true ↔ ∃ post, s = String.append sub post.
Proof.
  revert s. induction sub as [|c sub IH]; intros s;
    destruct s as [|c' s]; cbn [String.prefix String.append].
  - split; [by exists EmptyString | done].
  - split; [by exists (String c' s) | done].
  - split; [done | by intros [? ?]].
  - destruct (Ascii.ascii_dec c c') as [->|Hc].
    + rewrite IH. split; intros [post Hpost]; exists post;
        [by rewrite Hpost | by injection Hpost].
    + split; [done|]. intros [post Hpost]. injection Hpost as E _. by destruct Hc.
Qed.

Lemma contains_spec (sub s : string) :
  contains sub s = true
  ↔ ∃ pre post, s = String.append pre (String.append sub post).
Proof.
  induction s as [|c s IH]; cbn [contains]; rewrite orb_true_iff, prefix_spec.
  - split.
    + intros [[post Hpost] | ?]; [|done]. by exists EmptyString, post.
    + intros ([|? ?] & post & Hpost); [|done]. left. by exists post.
  - rewrite IH. split.
    + intros [[post Hpost] | (pre & post & Hpost)].
      * by exists EmptyString, post.
      * exists (String c pre), post. cbn [String.append]. by rewrite Hpost.
    + intros ([|c' pre] & post & Hpost).
      * left. by exists post.
      * right. exists pre, post. cbn [String.append] in Hpost. by injection Hpost.
Qed.

Lemma contains_has_substring (sub s : string) :
  contains sub s = true ↔ has_substring sub s.
Proof. apply contains_spec. Qed.

#[global] Instance has_substring_dec (sub s : string) : Decision (has_substring sub s).
Proof.
  destruct (contains sub s) eqn:E; [left | right].
  - by apply contains_has_substring.
  - intros Hs. apply contains_has_substring in Hs. congruence.
Defined.

(** The loop of [train_step] keeps the variables whose name does not have
    ["bn"] as a substring. *)
Lemma penalised_filter (trainable_variables : list tfVariable) :
  penalised trainable_variables
  = filter (fun var => ¬ has_substring "bn" (v_name var)) trainable_variables.
Proof.
  unfold penalised. induction trainable_variables as [|var rest IH]; [done|].
  cbn [List.filter]. rewrite filter_cons, IH.
  destruct (contains "bn" (v_name var)) eqn:E; cbn [negb].
  - rewrite decide_False; [done|].
    intros Hn. apply Hn. by apply contains_has_substring.
  - rewrite decide_True; [done|].
    intros Hs. apply contains_has_substring in Hs. congruence.
Qed.

(** X12. With a coefficient that is not zero, the terms the loop of the
    training step collects are the coefficient times [tf.nn.l2_loss], one for
    each trainable variable whose name does not have ["bn"] as a contiguous
    substring anywhere, in the order of the variables. The step raises when
    there is no such variable, and otherwise hands to the optimizer the
    primary loss plus the sum of these terms. *)
Theorem train_step_penalises_names_without_bn {Metrics : Type} (self : DeepLabV3.t)
    (trainable_variables : list tfVariable) (compute_loss : Q)
    (compute_metrics : Metrics) :
  let weight_decay := DeepLabV3.weight_decay self in
  let selected :=
    filter (fun var => ¬ has_substring "bn" (v_name var)) trainable_variables in
  truthy weight_decay = true ->
  DeepLabV3.collect_reg_losses weight_decay trainable_variables []
  = (fun var => weight_decay * l2_loss var)%Q <$> selected
  ∧ DeepLabV3.train_step self trainable_variables compute_loss compute_metrics
    = match selected with
      | [] => ([EvForward; EvComputeLoss], Raise ValueError)
      | var :: rest =>
          ([ EvForward; EvComputeLoss;
             EvMinimize
               (compute_loss
                + foldl Qplus (weight_decay * l2_loss var)
                    ((fun v => weight_decay * l2_loss v) <$> rest))%Q
               (v_name <$> trainable_variables);
             EvComputeMetrics ],
           Ok compute_metrics)
      end.
Proof.
  intros weight_decay selected Hwd. subst weight_decay selected.
  rewrite <- penalised_filter. split.
  - by rewrite collect_reg_losses_spec.
  - unfold DeepLabV3.train_step. rewrite Hwd, collect_reg_losses_spec.
    by destruct (penalised trainable_variables).
Qed.

(** ** The further properties on concrete inputs *)

Lemma head_call_output_shape_witness :
  ∃ tr out,
    SegmentationHead.call Examples.head11 (ADict Examples.fpn) = (tr, Ok out)
    ∧ shape out = [Some 2; Some 32; Some 32; Some 11]
    ∧ t_name out = "p3".
Proof.
  apply (head_call_output_shape 2 11 256 "relu" 0%Q 3 "softmax" false []
           Examples.fpn 3 Examples.p3 (Some 2) (Some 32) (Some 32) (Some 3)).
  - repeat split; try lia; discriminate.
  - reflexivity.
  - intros level [x Hx]. unfold Examples.fpn in Hx.
    repeat (apply lookup_insert_Some in Hx as [[<- _] | [_ Hx]]; [lia|]).
    by rewrite lookup_empty in Hx.
  - reflexivity.
Defined.

(** [SegmentationHead(num_classes=11, convolutions=-1)] on the pyramid. *)
Lemma head_call_without_blocks_witness :
  SegmentationHead.call
    (SegmentationHead.__init__ 11 (-1) 256 "relu" 0%Q 3 "softmax" false [])
    (ADict Examples.fpn)
  = ([EvApply (OpConv2D "segmentation_output" 11 1 "same" false (Some "softmax")
                        (Some "float32"))],
     Ok (mkTensor "p3" [Some 2; Some 32; Some 32; Some 11]
           [OpConv2D "segmentation_output" 11 1 "same" false (Some "softmax")
                     (Some "float32")])).
Proof.
  refine (proj2 (proj2 (head_call_without_blocks (-1) 11 256 "relu" 0%Q 3 "softmax"
                          false [] Examples.fpn 3 Examples.p3 _ _ _ _))).
  - lia.
  - reflexivity.
  - intros level [x Hx]. unfold Examples.fpn in Hx.
    repeat (apply lookup_insert_Some in Hx as [[<- _] | [_ Hx]]; [lia|]).
    by rewrite lookup_empty in Hx.
  - reflexivity.
Defined.

Lemma head_call_ignores_other_levels_witness :
  SegmentationHead.call Examples.head11 (ADict Examples.fpn)
  = SegmentationHead.call Examples.head11 (ADict {[ 3 := Examples.p3 ]}).
Proof.
  apply (head_call_ignores_other_levels Examples.head11 Examples.fpn 3 Examples.p3).
  - reflexivity.
  - intros level [x Hx]. unfold Examples.fpn in Hx.
    repeat (apply lookup_insert_Some in Hx as [[<- _] | [_ Hx]]; [lia|]).
    by rewrite lookup_empty in Hx.
Defined.

(** The calls of the constructor on a 512 by 512 input and the backbone of
    stride 16 go through. *)
Lemma example_layers_run :
  layers_run Examples.parse_model_inputs Examples.SpatialPyramidPooling
    21 "softmax" Examples.resnet None None [Some 512; Some 512; Some 3] None
    512 512 32 32
    (DeepLabV3.inputs Examples.model)
    (mkTensor "input" [None; Some 32; Some 32; Some 2048] [OpLayer "backbone"])
    (mkTensor "input" [None; Some 32; Some 32; Some 256]
       [OpLayer "backbone"; OpLayer "spatial_pyramid_pooling"])
    (DeepLabV3.outputs Examples.model)
    [] []
    (EvApply <$>
       [ OpConv2D "segmentation_head_conv_0" 256 1 "same" false None None;
         OpBatchNormalization "segmentation_head_norm_0";
         OpActivation "relu"; OpDropout (2 # 10);
         OpConv2D "segmentation_output" 21 1 "same" false (Some "softmax")
                  (Some "float32") ]).
Proof.
  split; [eexists; split; [reflexivity|]; left; by repeat split|].
  split; [reflexivity|]. split; [by eexists _, _|].
  split; [reflexivity|]. split; [reflexivity|]. split; [reflexivity|].
  split; [reflexivity|]. vm_compute. reflexivity.
Defined.

(** The model of the examples built with the weights file that exists: the
    file is tested first and loaded last. *)
Lemma init_runs_steps_in_order_witness :
  Examples.init 21 (OLayer Examples.resnet) None None "softmax"
    DeepLabV3.default_weight_decay [Some 512; Some 512; Some 3] None
    (Some "deeplab.h5")
  = ([ EvParseWeights "deeplab.h5"; EvGfileExists "deeplab.h5"; EvParseModelInputs ]
     ++ (EvApply <$>
           [ OpLayer "backbone"; OpLayer "spatial_pyramid_pooling";
             OpUpSampling2D (16, 16) "bilinear"; OpLayer "segmentation_head";
             OpConv2D "segmentation_head_conv_0" 256 1 "same" false None None;
             OpBatchNormalization "segmentation_head_norm_0";
             OpActivation "relu"; OpDropout (2 # 10);
             OpConv2D "segmentation_output" 21 1 "same" false (Some "softmax")
                      (Some "float32") ])
     ++ [EvSuperInit; EvParseWeights "deeplab.h5"; EvLoadWeights "deeplab.h5"],
     Ok Examples.model).
Proof.
  refine (init_runs_steps_in_order
            Examples.parse_weights Examples.gfile_exists Examples.parse_model_inputs
            Examples.SpatialPyramidPooling Examples.load_weights
            21 Examples.resnet None None "softmax" DeepLabV3.default_weight_decay
            [Some 512; Some 512; Some 3] None (Some "deeplab.h5") "deeplab.h5"
            512 512 32 32 _ _ _ _ _ _ _ _ example_layers_run).
  split; reflexivity.
Defined.

Lemma init_backbone_exception_propagates_witness :
  Examples.init 21 (OLayer Examples.failing_backbone) None None "softmax"
    DeepLabV3.default_weight_decay [Some 512; Some 512; Some 3] None None
  = ([ EvParseModelInputs; EvApply (OpLayer "backbone");
       EvApply (OpConv2D "conv1" 64 7 "valid" false None None) ],
     Raise ValueError).
Proof.
  refine (init_backbone_exception_propagates
            Examples.parse_weights Examples.gfile_exists Examples.parse_model_inputs
            Examples.SpatialPyramidPooling Examples.load_weights
            21 Examples.failing_backbone None None "softmax"
            DeepLabV3.default_weight_decay [Some 512; Some 512; Some 3] None None ""
            512 512 (mkTensor "input" [None; Some 512; Some 512; Some 3] [])
            [EvApply (OpConv2D "conv1" 64 7 "valid" false None None)] ValueError
            _ _ _).
  - exact I.
  - eexists. split; [reflexivity|]. left. by repeat split.
  - reflexivity.
Defined.

Lemma init_height_division_raises_witness :
  Examples.init 21 (OLayer Examples.empty_backbone) (Some Examples.identity_pooling)
    None "softmax" DeepLabV3.default_weight_decay [Some 512; Some 512; Some 3]
    None None
  = ([ EvParseModelInputs; EvApply (OpLayer "backbone");
       EvApply (OpLayer "activation") ],
     Raise ZeroDivisionError).
Proof.
  refine (init_height_division_raises
            Examples.parse_weights Examples.gfile_exists Examples.parse_model_inputs
            Examples.SpatialPyramidPooling Examples.load_weights
            21 Examples.empty_backbone (Some Examples.identity_pooling) None "softmax"
            DeepLabV3.default_weight_decay [Some 512; Some 512; Some 3] None None ""
            512 512 (mkTensor "input" [None; Some 512; Some 512; Some 3] [])
            (mkTensor "input" [None; Some 0; Some 512; Some 2048] [OpLayer "backbone"])
            (mkTensor "input" [None; Some 0; Some 512; Some 2048]
               [OpLayer "backbone"; OpLayer "activation"])
            [] [] (Some 0) _ _ _ _ _ _).
  - exact I.
  - eexists. split; [reflexivity|]. left. by repeat split.
  - reflexivity.
  - reflexivity.
  - by right.
  - reflexivity.
Defined.

(** A 100 by 100 input and the backbone of stride 16: the output is between
    94 and 100 on each axis. *)
Lemma init_output_within_input_resolution_witness :
  ∃ tr m oh ow,
    Examples.init 21 (OLayer Examples.resnet) None None "softmax"
      DeepLabV3.default_weight_decay [Some 100; Some 100; Some 3] None None
    = (tr, Ok m)
    ∧ shape (DeepLabV3.outputs m) = [None; Some oh; Some ow; Some 21]
    ∧ 100 - 7 < oh ≤ 100
    ∧ 100 - 7 < ow ≤ 100.
Proof.
  refine (init_output_within_input_resolution
            Examples.parse_weights Examples.gfile_exists Examples.parse_model_inputs
            Examples.SpatialPyramidPooling Examples.load_weights
            21 Examples.resnet None "softmax" DeepLabV3.default_weight_decay
            [Some 100; Some 100; Some 3] None None "" 100 100 7 7
            (mkTensor "input" [None; Some 100; Some 100; Some 3] [])
            (mkTensor "input" [None; Some 7; Some 7; Some 2048] [OpLayer "backbone"])
            (mkTensor "input" [None; Some 7; Some 7; Some 256]
               [OpLayer "backbone"; OpLayer "spatial_pyramid_pooling"])
            [] [] None None (Some 2048) (Some 256) _ _ _ _ _ _ _ _ _).
  - exact I.
  - reflexivity.
  - eexists. split; [reflexivity|]. left. by repeat split.
  - reflexivity.
  - reflexivity.
  - lia.
  - lia.
  - reflexivity.
  - reflexivity.
Defined.


Lemma init_unresolved_raises_ValueError_witness :
  Examples.init 21 (OLayer Examples.resnet) None None "softmax"
    DeepLabV3.default_weight_decay DeepLabV3.default_input_shape None None
  = ([EvParseModelInputs; EvInput], Raise ValueError).
Proof.
  refine (init_unresolved_raises_ValueError
            Examples.parse_weights Examples.gfile_exists Examples.parse_model_inputs
            Examples.SpatialPyramidPooling Examples.load_weights
            21 Examples.resnet None None "softmax" DeepLabV3.default_weight_decay
            DeepLabV3.default_input_shape None
            (mkTensor "input" [None; None; None; Some 3] [])
            [None; None; None; Some 3] _ _ _ _); reflexivity.
Defined.

(** A model all of whose variables belong to batch normalizations. *)
Lemma train_step_nothing_to_penalise_witness :
  DeepLabV3.train_step Examples.model
    [mkVariable "bn_conv1/gamma:0" [1%Q]; mkVariable "bn_conv1/beta:0" [0%Q]] 1%Q tt
  = ([EvForward; EvComputeLoss], Raise ValueError).
Proof.
  apply (train_step_nothing_to_penalise Examples.model
           [mkVariable "bn_conv1/gamma:0" [1%Q]; mkVariable "bn_conv1/beta:0" [0%Q]]
           1%Q tt); reflexivity.
Defined.


Lemma train_step_penalty_nonnegative_witness :
  ∃ total_loss : Q,
    DeepLabV3.train_step Examples.model [Examples.kernel] 1%Q tt
    = ([ EvForward; EvComputeLoss; EvMinimize total_loss ["conv2d/kernel:0"];
         EvComputeMetrics ], Ok tt)
    ∧ (1 <= total_loss)%Q.
Proof.
  apply (train_step_penalty_nonnegative Examples.model [Examples.kernel] 1%Q tt).
  - reflexivity.
  - discriminate.
Defined.

(** A step of the model built without weight decay, on no variable at all. *)
Lemma train_step_without_weight_decay_witness :
  DeepLabV3.train_step Examples.plain_model [] 1%Q tt
  = ([EvForward; EvComputeLoss; EvMinimize 1%Q []; EvComputeMetrics], Ok tt).
Proof.
  apply (train_step_without_weight_decay Examples.plain_model [] 1%Q tt).
  reflexivity.
Defined.

(** [Examples.plain_model] is what the constructor returns for
    [weight_decay=0.0]. *)
Lemma plain_model_constructed :
  ∃ tr,
    Examples.init 21 (OLayer Examples.resnet) None None "softmax" 0%Q
      [Some 512; Some 512; Some 3] None None
    = (tr, Ok Examples.plain_model).
Proof. eexists. vm_compute. reflexivity. Qed.

(** A batch normalization, a kernel of a layer named [subnet] and the kernel
    of the examples: only the last one is penalised. *)
Lemma train_step_penalises_names_without_bn_witness :
  DeepLabV3.collect_reg_losses DeepLabV3.default_weight_decay
    [ mkVariable "bn_conv1/gamma:0" [3%Q]; mkVariable "subnet/kernel:0" [5%Q];
      Examples.kernel ] []
  = [(DeepLabV3.default_weight_decay * l2_loss Examples.kernel)%Q]
  ∧ DeepLabV3.train_step Examples.model
      [ mkVariable "bn_conv1/gamma:0" [3%Q]; mkVariable "subnet/kernel:0" [5%Q];
        Examples.kernel ] 1%Q tt
    = ([ EvForward; EvComputeLoss;
         EvMinimize (1 + DeepLabV3.default_weight_decay * l2_loss Examples.kernel)%Q
           ["bn_conv1/gamma:0"; "subnet/kernel:0"; "conv2d/kernel:0"];
         EvComputeMetrics ], Ok tt).
Proof.
  apply (train_step_penalises_names_without_bn Examples.model
           [ mkVariable "bn_conv1/gamma:0" [3%Q]; mkVariable "subnet/kernel:0" [5%Q];
             Examples.kernel ] 1%Q tt).
  reflexivity.
Defined.
